(** * json4e: builders of ECharts option dictionaries

    A shallow embedding of [json4e/base.py] and the properties of its
    classes [Series], [Line], [Bar], [Axis], [Legend], [Tooltip] and
    [Chart].

    Python dictionaries with string keys are [gmap string _]; the
    exceptions the module raises are an error monad; the one method
    that mutates its object, [Chart.add_component], passes the chart
    state explicitly. *)

From stdpp Require Import gmap strings list fin_maps.

#[local] Set Warnings "-register-all".
#[local] Open Scope string_scope.
#[local] Open Scope list_scope.

(** ** Python values *)

(** The values the builders store and emit: names, data arrays, option
    values, and the nested dictionaries and lists of the result. *)
Inductive pyval : Type :=
  | PNone
  | PBool (b : bool)
  | PInt (z : Z)
  | PStr (s : string)
  | PList (l : list pyval)
  | PDict (d : gmap string pyval).

(** A [dict] with [str] keys, as built from a literal or received as
    [**kwargs]. *)
Abbreviation dict := (gmap string pyval).

(** ** Exceptions *)

Inductive message : Type :=
  | NotInSupportList (item : pyval) (checklist : list string)
      (* '{0} is NOT in support list ({1})'.format(item, checklist) *)
  | NoSuchComponent
      (* 'does not have this component' *)
  | MultipleValues (argument : string).
      (* "__init__() got multiple values for argument '...'" *)

Inductive exn : Type :=
  | TypeError (m : message)
  | AttributeError (attr : string).

Inductive result (A : Type) : Type :=
  | Ok (a : A)
  | Raise (e : exn).
Arguments Ok {A} a.
Arguments Raise {A} e.

#[global] Instance result_ret : MRet result := λ A a, Ok a.
#[global] Instance result_bind : MBind result := λ A B f m,
  match m with
  | Ok a => f a
  | Raise e => Raise e
  end.

(** Reading an attribute that [__init__] may not have created. *)
Definition getattr {A} (name : string) (slot : option A) : result A :=
  match slot with
  | Some a => Ok a
  | None => Raise (AttributeError name)
  end.

(** ** Built-in operations used by the module *)

(** [item in checklist] for a list (or tuple) of [str]: Python compares
    with [==], and only a [str] of the same characters equals a [str]. *)
Definition py_in (item : pyval) (checklist : list string) : bool :=
  match item with
  | PStr s => bool_decide (s ∈ checklist)
  | _ => false
  end.

(** [d.update(other)]: every item of [other] is assigned into [d]. *)
Definition update (d other : dict) : dict :=
  map_fold (λ key value acc, <[key := value]> acc) d other.

(** [l or default] on lists: an empty list is falsy. *)
Definition list_or (l default : list pyval) : list pyval :=
  match l with
  | [] => default
  | _ :: _ => l
  end.

(** [f(a, ..., **kwargs)] where the parameter [param] of [f] is given a
    value by the call itself: Python raises when [kwargs] has a key of
    that name, before the body of [f] runs. *)
Definition unpack_kwargs (param : string) (kwargs : dict) : result unit :=
  match kwargs !! param with
  | Some _ => Raise (TypeError (MultipleValues param))
  | None => Ok tt
  end.

(** ** Module level *)

Definition SUPPORTED_POS : list string := ["top"; "bottom"; "left"; "right"].

Definition _check_valid (item : pyval) (checklist : list string) : result unit :=
  if negb (py_in item checklist)
  then Raise (TypeError (NotInSupportList item checklist))
  else Ok tt.

(** ** The constructors

    Each [__init__] takes its parameters in the order of the source; a
    parameter with a default value ([data=None], [assigned_type='plain'],
    [orient='horizontal'], [trigger='axis'], [axis_pointer_type='line'],
    [animation=True]) is passed explicitly. [kwargs] is the dictionary
    Python collects from the keywords that name no formal parameter, so
    a caller can never put a key such as ["name"] for a series or
    ["animation"] for a chart in it; the functions below accept any
    dictionary. *)

(** ** class Series, and its subclasses Line and Bar *)

Module Series.

Definition DEFAULT_TYPES : list string :=
  [ "line"; "bar"; "pie"; "scatter"; "effectScatter"; "radar";
    "tree"; "treemap"; "sunburst"; "boxplot"; "candlestick";
    "heatmap"; "map"; "parallel"; "lines"; "graph"; "sankey";
    "funnel"; "gauge"; "pictorialBar"; "themeRiver"; "custom" ].

Record t : Type := mk {
  _type : pyval;
  _name : pyval;
  _data : pyval;
  _optional_args : dict
}.

Definition __init__ (assigned_type name data : pyval) (kwargs : dict) : result t :=
  _check_valid assigned_type DEFAULT_TYPES;;
  Ok {| _type := assigned_type;
        _name := name;
        _data := data;
        _optional_args := kwargs |}.

(** [_optional_args] is the [**kwargs] dictionary, never [None], so the
    guard [if self._optional_args is not None] is always taken. *)
Definition json (self : t) : dict :=
  let jsondict : dict :=
    {[ "name" := _name self;
       "data" := _data self;
       "type" := _type self ]} in
  update jsondict (_optional_args self).

End Series.

(** [Line.__init__] and [Bar.__init__] call
    [Series.__init__(self, 'line', name, data, **kwargs)] and
    [Series.__init__(self, 'bar', name=name, data=data, **kwargs)]: the
    type is given by position, so a key ["assigned_type"] in [kwargs]
    (it names no parameter of [Line.__init__] or [Bar.__init__], so a
    caller can put it there) gives that parameter a second value.
    [name] and [data] are parameters of the two constructors
    themselves, so their [kwargs] never holds these names. *)
Module Line.
Definition __init__ (name data : pyval) (kwargs : dict) : result Series.t :=
  unpack_kwargs "assigned_type" kwargs;;
  Series.__init__ (PStr "line") name data kwargs.
End Line.

Module Bar.
Definition __init__ (name data : pyval) (kwargs : dict) : result Series.t :=
  unpack_kwargs "assigned_type" kwargs;;
  Series.__init__ (PStr "bar") name data kwargs.
End Bar.

(** ** class Axis *)

Module Axis.

Definition SUPPORTED_TYPE : list string := ["category"; "value"; "time"; "log"].

Record t : Type := mk {
  _atype : pyval;
  _pos : pyval;
  _name : pyval;
  _data : pyval;
  _optional_args : dict
}.

Definition __init__ (assigned_type name pos data : pyval) (kwargs : dict) : result t :=
  _check_valid assigned_type SUPPORTED_TYPE;;
  Ok {| _atype := assigned_type;
        _pos := pos;
        _name := name;
        _data := data;
        _optional_args := kwargs |}.

Definition position (self : t) : pyval := _pos self.

Definition x_axis (self : t) : bool :=
  if py_in (_pos self) ["bottom"; "top"] then true else false.

Definition y_axis (self : t) : bool := negb (x_axis self).

Definition json (self : t) : dict :=
  let jsondict : dict :=
    {[ "name" := _name self;
       "type" := _atype self;
       "data" := _data self;
       "position" := _pos self ]} in
  update jsondict (_optional_args self).

End Axis.

(** ** class Legend *)

Module Legend.

Definition SUPPORTED_TYPE : list string := ["plain"; "scroll"].
Definition SUPPORTED_ORIENT : list string := ["horizontal"; "vertical"].

(** [position] is "a tuple like (1, 2)": a pair, read as
    [self._pos[0]] and [self._pos[1]]. *)
Record t : Type := mk {
  _data : pyval;
  _orient : pyval;
  _type : pyval;
  _pos : pyval * pyval;
  _optional_args : dict
}.

Definition __init__ (position : pyval * pyval) (data assigned_type orient : pyval)
    (kwargs : dict) : result t :=
  _check_valid orient SUPPORTED_ORIENT;;
  Ok {| _data := data;
        _orient := orient;
        _type := assigned_type;
        _pos := position;
        _optional_args := kwargs |}.

Definition json (self : t) : dict :=
  let jsondict : dict :=
    {[ "orient" := _orient self;
       "data" := _data self;
       "x" := (_pos self).1;
       "y" := (_pos self).2;
       "type" := _type self ]} in
  update jsondict (_optional_args self).

End Legend.

(** ** class Tooltip *)

Module Tooltip.

Definition TRIGGERS : list string := ["axis"; "item"].
Definition AXISPOINTER_TYPES : list string := ["line"; "shadow"; "none"; "cross"].

Record t : Type := mk {
  _trigger : pyval;
  _axis_pointertype : pyval;
  _optional_args : dict
}.

Definition __init__ (trigger axis_pointer_type : pyval) (kwargs : dict) : result t :=
  _check_valid trigger TRIGGERS;;
  Ok {| _trigger := trigger;
        _axis_pointertype := axis_pointer_type;
        _optional_args := kwargs |}.

Definition json (self : t) : dict :=
  let jsondict : dict :=
    {[ "trigger" := _trigger self;
       "axisPointer" := PDict {[ "type" := _axis_pointertype self ]} ]} in
  update jsondict (_optional_args self).

End Tooltip.

(** ** class Chart *)

(** The instances of this module's classes that a chart can hold; each
    has the [json] property of [JsonRender]. An instance of [Line] or
    [Bar] is an instance of [Series]. *)
Inductive component : Type :=
  | CSeries (s : Series.t)
  | CLegend (l : Legend.t)
  | CTooltip (t : Tooltip.t)
  | CAxis (a : Axis.t).

(** [value.json], dispatched on the class of [value]. *)
Definition component_json (value : component) : dict :=
  match value with
  | CSeries s => Series.json s
  | CLegend l => Legend.json l
  | CTooltip t => Tooltip.json t
  | CAxis a => Axis.json a
  end.

(** What a caller can hand to [add_component]: an instance of one of the
    classes above, or any other value. *)
Inductive object : Type :=
  | Instance_of (c : component)
  | Other (v : pyval).

(** *** Instances of classes that derive from several of them

    [isinstance] also holds of an instance of a subclass, and a class
    of the caller's can derive from several of the four classes that
    [add_component] tests for: [class LegendSeries(Legend, Series)]. *)
Inductive class : Type :=
  | Class_Series
  | Class_Legend
  | Class_Tooltip
  | Class_Axis.

#[global] Instance class_eq_dec : EqDecision class.
Proof. solve_decision. Defined.

Definition class_of (c : component) : class :=
  match c with
  | CSeries _ => Class_Series
  | CLegend _ => Class_Legend
  | CTooltip _ => Class_Tooltip
  | CAxis _ => Class_Axis
  end.

(** [Derived c others] is an instance of a class that has the class of
    [c] first among its bases, or is that class, and the classes
    [others] after it: it is built by the [__init__] of the class of
    [c], has the attributes of [c] and, by the method resolution order,
    the [json] of [c]. It overrides nothing it inherits.
    [Plain_value v] is any value that is an instance of none of the
    four classes. *)
Inductive argument : Type :=
  | Derived (c : component) (others : list class)
  | Plain_value (v : pyval).

Definition isinstance (x : argument) (C : class) : bool :=
  match x with
  | Derived c others => bool_decide (C ∈ class_of c :: others)
  | Plain_value _ => false
  end.

(** An instance of exactly one of the four classes, or another value,
    seen as such an argument. *)
Definition as_argument (o : object) : argument :=
  match o with
  | Instance_of c => Derived c []
  | Other v => Plain_value v
  end.

(** The chain [if isinstance(component, Series) ... elif ... else] of
    [add_component]: the branch that is taken. *)
Inductive branch : Type :=
  | To_series
  | To_legend
  | To_tooltip
  | To_axis
  | Refused.

Definition add_component_branch (component : argument) : branch :=
  if isinstance component Class_Series then To_series
  else if isinstance component Class_Legend then To_legend
  else if isinstance component Class_Tooltip then To_tooltip
  else if isinstance component Class_Axis then To_axis
  else Refused.

Module Chart.

(** [_x_axis] and [_y_axis] are attributes that [__init__] creates
    only when [axis_enabled] holds: [None] is the missing attribute.
    [_components] maps each of its five keys to a component or to
    Python's [None]. *)
Record t : Type := mk {
  _text : pyval;
  _subtext : pyval;
  _axis_enabled : bool;
  _animation : pyval;
  _x_axis : option (list Axis.t);
  _y_axis : option (list Axis.t);
  _series : list pyval;
  _optional_args : dict;
  _components : gmap string (option component)
}.

Definition __init__ (text subtext : pyval) (axis_enabled : bool) (animation : pyval)
    (kwargs : dict) : t :=
  {| _text := text;
     _subtext := subtext;
     _axis_enabled := axis_enabled;
     _animation := animation;
     _x_axis := if axis_enabled then Some [] else None;
     _y_axis := if axis_enabled then Some [] else None;
     _series := [];
     _optional_args := kwargs;
     _components :=
       {[ "legend" := None;
          "tooltip" := None;
          "series" := None;
          "toolbox" := None;
          "visualMap" := None ]} |}.

(** [self._components[key] = component] *)
Definition set_component (key : string) (c : component) (self : t) : t :=
  {| _text := _text self;
     _subtext := _subtext self;
     _axis_enabled := _axis_enabled self;
     _animation := _animation self;
     _x_axis := _x_axis self;
     _y_axis := _y_axis self;
     _series := _series self;
     _optional_args := _optional_args self;
     _components := <[key := Some c]> (_components self) |}.

(** [self._x_axis.append(a)] and [self._y_axis.append(a)], once the
    list has been read from the attribute. *)
Definition set_x_axis (xs : list Axis.t) (self : t) : t :=
  {| _text := _text self;
     _subtext := _subtext self;
     _axis_enabled := _axis_enabled self;
     _animation := _animation self;
     _x_axis := Some xs;
     _y_axis := _y_axis self;
     _series := _series self;
     _optional_args := _optional_args self;
     _components := _components self |}.

Definition set_y_axis (ys : list Axis.t) (self : t) : t :=
  {| _text := _text self;
     _subtext := _subtext self;
     _axis_enabled := _axis_enabled self;
     _animation := _animation self;
     _x_axis := _x_axis self;
     _y_axis := Some ys;
     _series := _series self;
     _optional_args := _optional_args self;
     _components := _components self |}.

(** The method returns [None] or raises; the second component is the
    chart after the call. The branches follow the [isinstance] chain:
    Series, Legend, Tooltip, Axis, else. *)
Definition add_component (component : object) (self : t) : result unit * t :=
  match component with
  | Instance_of (CSeries _ as c) => (Ok tt, set_component "series" c self)
  | Instance_of (CLegend _ as c) => (Ok tt, set_component "legend" c self)
  | Instance_of (CTooltip _ as c) => (Ok tt, set_component "tooltip" c self)
  | Instance_of (CAxis a) =>
      if Axis.x_axis a then
        match getattr "_x_axis" (_x_axis self) with
        | Ok xs => (Ok tt, set_x_axis (xs ++ [a]) self)
        | Raise e => (Raise e, self)
        end
      else
        match getattr "_y_axis" (_y_axis self) with
        | Ok ys => (Ok tt, set_y_axis (ys ++ [a]) self)
        | Raise e => (Raise e, self)
        end
  | Other _ => (Raise (TypeError NoSuchComponent), self)
  end.

(** [add_component] on any argument: what each branch of the chain
    does with the object it was given. The branch of the axis is only
    taken by an object that is an instance of [Axis] and of none of the
    three other classes, so it has the attributes and the [x_axis] of
    an axis; the last case is the [else] of the chain. *)
Definition add_component_isinstance (component : argument) (self : t) : result unit * t :=
  match add_component_branch component, component with
  | To_series, Derived c _ => (Ok tt, set_component "series" c self)
  | To_legend, Derived c _ => (Ok tt, set_component "legend" c self)
  | To_tooltip, Derived c _ => (Ok tt, set_component "tooltip" c self)
  | To_axis, Derived (CAxis a) _ =>
      if Axis.x_axis a then
        match getattr "_x_axis" (_x_axis self) with
        | Ok xs => (Ok tt, set_x_axis (xs ++ [a]) self)
        | Raise e => (Raise e, self)
        end
      else
        match getattr "_y_axis" (_y_axis self) with
        | Ok ys => (Ok tt, set_y_axis (ys ++ [a]) self)
        | Raise e => (Raise e, self)
        end
  | _, _ => (Raise (TypeError NoSuchComponent), self)
  end.

(** The loop [for key, value in self._components.items()]. *)
Definition json_components (jsondict : dict) (components : gmap string (option component))
    : dict :=
  map_fold
    (λ key value jsondict,
       match value with
       | Some c => <[key := PDict (component_json c)]> jsondict
       | None => jsondict
       end)
    jsondict components.

(** [[item.json for item in axes] or [{}]] *)
Definition json_axes (axes : list Axis.t) : pyval :=
  PList (list_or ((λ item, PDict (Axis.json item)) <$> axes) [PDict ∅]).

Definition json (self : t) : result dict :=
  let jsondict : dict :=
    {[ "title" := PDict {[ "text" := _text self; "subtext" := _subtext self ]};
       "animation" := _animation self ]} in
  let jsondict := json_components jsondict (_components self) in
  jsondict ←
    (if _axis_enabled self then
       xs ← getattr "_x_axis" (_x_axis self);
       let jsondict := <["xAxis" := json_axes xs]> jsondict in
       ys ← getattr "_y_axis" (_y_axis self);
       Ok (<["yAxis" := json_axes ys]> jsondict)
     else Ok jsondict);
  Ok (update jsondict (_optional_args self)).

End Chart.

(** ** A chart in use *)

(** The calls a client makes on a chart it has constructed, and what
    each gives back. *)
Inductive call : Type :=
  | Call_add_component (component : object)
  | Call_json.

Inductive reply : Type :=
  | Returned_None
  | Returned_dict (d : dict)
  | Raised (e : exn).

Definition step (c : call) (self : Chart.t) : reply * Chart.t :=
  match c with
  | Call_add_component component =>
      match Chart.add_component component self with
      | (Ok _, self') => (Returned_None, self')
      | (Raise e, self') => (Raised e, self')
      end
  | Call_json =>
      match Chart.json self with
      | Ok d => (Returned_dict d, self)
      | Raise e => (Raised e, self)
      end
  end.

(** The replies to a sequence of calls and the chart they leave; a
    caller that catches an exception goes on with the same chart. *)
Fixpoint run (cs : list call) (self : Chart.t) : list reply * Chart.t :=
  match cs with
  | [] => ([], self)
  | c :: cs =>
      let (r, self') := step c self in
      let (rs, self'') := run cs self' in
      (r :: rs, self'')
  end.

Definition replies (cs : list call) (self : Chart.t) : list reply := (run cs self).1.
Definition chart_after (cs : list call) (self : Chart.t) : Chart.t := (run cs self).2.

(** ** The structure of a chart, as specified *)

(** The named single-slot components a chart currently holds, each as
    its own nested structure under its name. *)
Definition held_structures (components : gmap string (option component)) : dict :=
  (λ c, PDict (component_json c)) <$> omap id components.

(** The array of the structures of the held axes, at least [[{}]]. *)
Definition axes_structure (axes : list Axis.t) : pyval :=
  match axes with
  | [] => PList [PDict ∅]
  | _ :: _ => PList ((λ a, PDict (Axis.json a)) <$> axes)
  end.

(** The base fields of a chart, before the extra options are merged on
    top: title and animation, the held components, and the two axis
    arrays when the axis is enabled. *)
Definition chart_base_fields (self : Chart.t) : dict :=
  let title_animation : dict :=
    {[ "title" := PDict {[ "text" := Chart._text self; "subtext" := Chart._subtext self ]};
       "animation" := Chart._animation self ]} in
  let axes : dict :=
    if Chart._axis_enabled self
    then {[ "xAxis" := axes_structure (default [] (Chart._x_axis self));
            "yAxis" := axes_structure (default [] (Chart._y_axis self)) ]}
    else ∅ in
  axes ∪ (held_structures (Chart._components self) ∪ title_animation).

(** The axes among the components offered by a sequence of calls, in
    the order of the calls: the horizontal ones, or the vertical ones. *)
Definition offered_axis (horizontal : bool) (c : call) : option Axis.t :=
  match c with
  | Call_add_component (Instance_of (CAxis a)) =>
      if decide (Axis.x_axis a = horizontal) then Some a else None
  | _ => None
  end.

Definition offered_axes (horizontal : bool) (cs : list call) : list Axis.t :=
  omap (offered_axis horizontal) cs.

(** The attributes [_x_axis] and [_y_axis] exist exactly when the axis
    is enabled. *)
Definition axis_attributes (self : Chart.t) : Prop :=
  if Chart._axis_enabled self
  then is_Some (Chart._x_axis self) ∧ is_Some (Chart._y_axis self)
  else Chart._x_axis self = None ∧ Chart._y_axis self = None.

(** A method of [Chart] never rebinds what [__init__] was given. *)
Definition same_settings (self self' : Chart.t) : Prop :=
  Chart._text self' = Chart._text self ∧
  Chart._subtext self' = Chart._subtext self ∧
  Chart._axis_enabled self' = Chart._axis_enabled self ∧
  Chart._animation self' = Chart._animation self ∧
  Chart._optional_args self' = Chart._optional_args self.


(** ** The structures of the leaf entities, as specified *)

(** The base fields of each entity: what its structure holds before
    the extra options are merged on top. *)
Definition series_base_fields (self : Series.t) : dict :=
  {[ "name" := Series._name self;
     "data" := Series._data self;
     "type" := Series._type self ]}.

Definition axis_base_fields (self : Axis.t) : dict :=
  {[ "name" := Axis._name self;
     "type" := Axis._atype self;
     "data" := Axis._data self;
     "position" := Axis._pos self ]}.

Definition legend_base_fields (self : Legend.t) : dict :=
  {[ "orient" := Legend._orient self;
     "data" := Legend._data self;
     "x" := (Legend._pos self).1;
     "y" := (Legend._pos self).2;
     "type" := Legend._type self ]}.

Definition tooltip_base_fields (self : Tooltip.t) : dict :=
  {[ "trigger" := Tooltip._trigger self;
     "axisPointer" := PDict {[ "type" := Tooltip._axis_pointertype self ]} ]}.

(** [structure] is [base] with [extra] merged on top: a key of [extra]
    has the value [extra] gives it, any other key the value [base]
    gives it, if any. *)
Definition merged_over (structure base extra : dict) : Prop :=
  structure = extra ∪ base ∧
  (∀ key v, extra !! key = Some v → structure !! key = Some v) ∧
  (∀ key, extra !! key = None → structure !! key = base !! key).

(** ** What a sequence of calls offers *)

(** The slot of [_components] a component is assigned to; an axis goes
    to a list instead. *)
Definition slot_of (c : component) : option string :=
  match c with
  | CSeries _ => Some "series"
  | CLegend _ => Some "legend"
  | CTooltip _ => Some "tooltip"
  | CAxis _ => None
  end.

(** The component a call offers for the slot [key], if any, and the
    last one a sequence of calls offers for it. *)
Definition offered_for (key : string) (c : call) : option component :=
  match c with
  | Call_add_component (Instance_of x) =>
      if decide (slot_of x = Some key) then Some x else None
  | _ => None
  end.

Definition last_offered (key : string) (cs : list call) : option component :=
  last (omap (offered_for key) cs).

(** The top-level key of the structure that accepting a component can
    change: the name of its slot, or the name of its axis array. *)
Definition target_key (component : object) : option string :=
  match component with
  | Instance_of (CAxis a) => Some (if Axis.x_axis a then "xAxis" else "yAxis")
  | Instance_of c => slot_of c
  | Other _ => None
  end.


(** The names of the slots for which a sequence of calls offers a
    component. *)
Definition offered_slot (c : call) : option string :=
  match c with
  | Call_add_component (Instance_of x) => slot_of x
  | _ => None
  end.

Definition offered_slots (cs : list call) : gset string :=
  list_to_set (omap offered_slot cs).

(** What the structure of a chart in use has under [key], before the
    extra options: the title and the animation given to [__init__], the
    axis arrays when the axis is enabled, and under the name of a slot
    the structure of the last component offered for it. *)
Definition expected_base (text subtext : pyval) (axis_enabled : bool) (animation : pyval)
    (cs : list call) (key : string) : option pyval :=
  if decide (key = "xAxis") then
    if axis_enabled then Some (axes_structure (offered_axes true cs)) else None
  else if decide (key = "yAxis") then
    if axis_enabled then Some (axes_structure (offered_axes false cs)) else None
  else if decide (key = "title") then
    Some (PDict {[ "text" := text; "subtext" := subtext ]})
  else if decide (key = "animation") then
    Some animation
  else
    (λ c, PDict (component_json c)) <$> last_offered key cs.

(** * Properties *)

(** ** Built-ins *)

Lemma update_union (d other : dict) : update d other = other ∪ d.
Proof.
  unfold update.
  apply (map_fold_weak_ind (λ (r : dict) (m : dict), r = m ∪ d)).
  - by rewrite (left_id_L ∅ (∪)).
  - intros key value m r _ ->. by rewrite insert_union_l.
Qed.

Lemma lookup_update (d other : dict) (key : string) :
  update d other !! key =
    match other !! key with
    | Some v => Some v
    | None => d !! key
    end.
Proof.
  rewrite update_union, lookup_union.
  destruct (other !! key), (d !! key); reflexivity.
Qed.

Lemma py_in_true (item : pyval) (checklist : list string) :
  py_in item checklist = true ↔ ∃ s, item = PStr s ∧ s ∈ checklist.
Proof.
  split.
  - destruct item; simpl; try discriminate.
    intros H%bool_decide_eq_true. eauto.
  - intros (s & -> & Hs). simpl. by apply bool_decide_eq_true.
Qed.

Lemma py_in_false (item : pyval) (checklist : list string) :
  py_in item checklist = false ↔ ∀ s, s ∈ checklist → item ≠ PStr s.
Proof.
  rewrite <- not_true_iff_false, py_in_true. split.
  - intros H s Hs ->. apply H. eauto.
  - intros H (s & -> & Hs). by apply (H s).
Qed.

Lemma _check_valid_member (s : string) (checklist : list string) :
  s ∈ checklist → _check_valid (PStr s) checklist = Ok tt.
Proof.
  intros Hs. unfold _check_valid.
  assert (py_in (PStr s) checklist = true) as -> by (apply py_in_true; eauto).
  reflexivity.
Qed.

Lemma _check_valid_outside (item : pyval) (checklist : list string) :
  (∀ s, s ∈ checklist → item ≠ PStr s) →
  _check_valid item checklist = Raise (TypeError (NotInSupportList item checklist)).
Proof.
  intros H%py_in_false. unfold _check_valid. by rewrite H.
Qed.

(** ** The loop over the components *)

Lemma json_components_lookup (jsondict : dict)
    (components : gmap string (option component)) (key : string) :
  Chart.json_components jsondict components !! key =
    match components !! key with
    | Some (Some c) => Some (PDict (component_json c))
    | _ => jsondict !! key
    end.
Proof.
  unfold Chart.json_components. revert key.
  apply (map_fold_weak_ind
    (λ (r : dict) (m : gmap string (option component)),
       ∀ key, r !! key =
         match m !! key with
         | Some (Some c) => Some (PDict (component_json c))
         | _ => jsondict !! key
         end)).
  - intros key. by rewrite lookup_empty.
  - intros i x m r Hi IH key.
    destruct (decide (i = key)) as [->|Hne].
    + rewrite lookup_insert_eq. destruct x as [c|].
      * by rewrite lookup_insert_eq.
      * by rewrite IH, Hi.
    + rewrite (lookup_insert_ne m) by done. destruct x as [c|].
      * rewrite lookup_insert_ne by done. apply IH.
      * apply IH.
Qed.

Lemma held_structures_lookup (components : gmap string (option component)) (key : string) :
  held_structures components !! key =
    match components !! key with
    | Some (Some c) => Some (PDict (component_json c))
    | _ => None
    end.
Proof.
  unfold held_structures. rewrite lookup_fmap, lookup_omap.
  by destruct (components !! key) as [[c|]|].
Qed.

Lemma json_components_held (jsondict : dict) (components : gmap string (option component)) :
  Chart.json_components jsondict components = held_structures components ∪ jsondict.
Proof.
  apply map_eq. intros key.
  rewrite json_components_lookup, lookup_union, held_structures_lookup.
  destruct (components !! key) as [[c|]|], (jsondict !! key); reflexivity.
Qed.

Lemma json_axes_structure (axes : list Axis.t) :
  Chart.json_axes axes = axes_structure axes.
Proof. by destruct axes. Qed.

(** ** [Chart.json] on a chart whose attributes exist *)

Lemma Chart_json_base (self : Chart.t) :
  axis_attributes self →
  Chart.json self = Ok (Chart._optional_args self ∪ chart_base_fields self).
Proof.
  unfold axis_attributes, Chart.json, chart_base_fields.
  destruct (Chart._axis_enabled self).
  - intros [[xs Hx] [ys Hy]]. rewrite Hx, Hy. simpl.
    rewrite update_union, json_components_held, !json_axes_structure.
    do 2 f_equal.
    apply map_eq. intros k. symmetry.
    destruct (decide (k = "yAxis")) as [->|Hy'].
    { rewrite lookup_insert_eq. apply lookup_union_Some_l.
      by rewrite lookup_insert_ne, lookup_singleton_eq. }
    destruct (decide (k = "xAxis")) as [->|Hx'].
    { rewrite lookup_insert_ne, lookup_insert_eq by done.
      apply lookup_union_Some_l. by rewrite lookup_insert_eq. }
    rewrite !(lookup_insert_ne _ _ k) by done.
    apply lookup_union_r. by rewrite lookup_insert_ne, lookup_singleton_ne.
  - intros _. simpl.
    by rewrite update_union, json_components_held, (left_id_L ∅ (∪)).
Qed.

(** ** Sequences of calls *)

Lemma chart_after_cons (c : call) (cs : list call) (self : Chart.t) :
  chart_after (c :: cs) self = chart_after cs (step c self).2.
Proof.
  unfold chart_after. simpl.
  destruct (step c self) as [r self']. simpl.
  by destruct (run cs self').
Qed.

Lemma replies_cons (c : call) (cs : list call) (self : Chart.t) :
  replies (c :: cs) self = (step c self).1 :: replies cs (step c self).2.
Proof.
  unfold replies. simpl.
  destruct (step c self) as [r self']. simpl.
  by destruct (run cs self').
Qed.

Lemma chart_after_app (cs1 cs2 : list call) (self : Chart.t) :
  chart_after (cs1 ++ cs2) self = chart_after cs2 (chart_after cs1 self).
Proof.
  revert self. induction cs1 as [|c cs1 IH]; intros self; [done|].
  simpl. by rewrite !chart_after_cons, IH.
Qed.

Lemma replies_app (cs1 cs2 : list call) (self : Chart.t) :
  replies (cs1 ++ cs2) self = replies cs1 self ++ replies cs2 (chart_after cs1 self).
Proof.
  revert self. induction cs1 as [|c cs1 IH]; intros self; [done|].
  simpl. by rewrite !replies_cons, chart_after_cons, IH.
Qed.

Lemma step_add_component (component : object) (self : Chart.t) :
  (step (Call_add_component component) self).2 = (Chart.add_component component self).2.
Proof. simpl. by destruct (Chart.add_component component self) as [[]]. Qed.

Lemma step_json (self : Chart.t) : (step Call_json self).2 = self.
Proof. simpl. by destruct (Chart.json self). Qed.

Lemma step_same_settings (c : call) (self : Chart.t) :
  same_settings self (step c self).2.
Proof.
  destruct c as [component|]; [|by rewrite step_json].
  rewrite step_add_component. unfold same_settings.
  destruct component as [[s|l|t|a]|v]; simpl; try done.
  destruct (Axis.x_axis a).
  - by destruct (Chart._x_axis self).
  - by destruct (Chart._y_axis self).
Qed.

Lemma chart_after_same_settings (cs : list call) (self : Chart.t) :
  same_settings self (chart_after cs self).
Proof.
  revert self. induction cs as [|c cs IH]; intros self; [done|].
  rewrite chart_after_cons.
  destruct (step_same_settings c self) as (?&?&?&?&?).
  destruct (IH (step c self).2) as (?&?&?&?&?).
  unfold same_settings. repeat split; congruence.
Qed.

(** With the axis enabled, the two lists collect the offered axes. *)
Lemma chart_after_axes_enabled (cs : list call) (self : Chart.t) (xs ys : list Axis.t) :
  Chart._x_axis self = Some xs →
  Chart._y_axis self = Some ys →
  Chart._x_axis (chart_after cs self) = Some (xs ++ offered_axes true cs) ∧
  Chart._y_axis (chart_after cs self) = Some (ys ++ offered_axes false cs).
Proof.
  revert self xs ys. induction cs as [|c cs IH]; intros self xs ys Hx Hy.
  { simpl. by rewrite !(right_id_L [] (++)). }
  rewrite chart_after_cons. unfold offered_axes. simpl.
  destruct c as [[[s|l|t|a]|v]|]; simpl; try (by apply IH).
  - unfold Axis.y_axis. destruct (Axis.x_axis a) eqn:Ha; rewrite ?Hx, ?Hy; simpl.
    + destruct (IH (Chart.set_x_axis (xs ++ [a]) self) (xs ++ [a]) ys eq_refl Hy)
        as [-> ->].
      by rewrite <- (assoc_L (++)).
    + destruct (IH (Chart.set_y_axis (ys ++ [a]) self) xs (ys ++ [a]) Hx eq_refl)
        as [-> ->].
      by rewrite <- (assoc_L (++)).
  - destruct (Chart.json self); simpl; by apply IH.
Qed.

(** With the axis disabled, the two attributes are never created. *)
Lemma chart_after_axes_disabled (cs : list call) (self : Chart.t) :
  Chart._x_axis self = None →
  Chart._y_axis self = None →
  Chart._x_axis (chart_after cs self) = None ∧
  Chart._y_axis (chart_after cs self) = None.
Proof.
  revert self. induction cs as [|c cs IH]; intros self Hx Hy; [done|].
  rewrite chart_after_cons.
  destruct c as [[[s|l|t|a]|v]|]; simpl; try (by apply IH).
  - destruct (Axis.x_axis a); rewrite ?Hx, ?Hy; simpl; by apply IH.
  - destruct (Chart.json self); simpl; by apply IH.
Qed.

Lemma chart_after_axis_attributes (cs : list call) (text subtext : pyval)
    (axis_enabled : bool) (animation : pyval) (kwargs : dict) :
  axis_attributes (chart_after cs (Chart.__init__ text subtext axis_enabled animation kwargs)).
Proof.
  unfold axis_attributes.
  destruct (chart_after_same_settings cs
    (Chart.__init__ text subtext axis_enabled animation kwargs)) as (_&_&->&_&_).
  simpl. destruct axis_enabled.
  - destruct (chart_after_axes_enabled cs
      (Chart.__init__ text subtext true animation kwargs) [] []) as [-> ->]; eauto.
  - by apply chart_after_axes_disabled.
Qed.

(** Only the slots of the series, the legend and the tooltip are ever
    assigned. *)
Lemma chart_after_other_slot (cs : list call) (self : Chart.t) (key : string) :
  key ≠ "series" → key ≠ "legend" → key ≠ "tooltip" →
  Chart._components (chart_after cs self) !! key = Chart._components self !! key.
Proof.
  intros Hs Hl Ht. revert self.
  induction cs as [|c cs IH]; intros self; [done|].
  rewrite chart_after_cons, IH.
  destruct c as [[[s|l|t|a]|v]|]; simpl;
    try done; try (by rewrite lookup_insert_ne).
  - destruct (Axis.x_axis a).
    + by destruct (Chart._x_axis self).
    + by destruct (Chart._y_axis self).
  - by destruct (Chart.json self).
Qed.

(** ** Merging the extra options *)

Lemma update_merged_over (base extra : dict) :
  merged_over (update base extra) base extra.
Proof.
  unfold merged_over. split; [apply update_union|]. split.
  - intros key v Hv. by rewrite lookup_update, Hv.
  - intros key Hv. by rewrite lookup_update, Hv.
Qed.

Lemma Chart_json_merged_over (self : Chart.t) :
  axis_attributes self →
  ∃ d, Chart.json self = Ok d ∧
       merged_over d (chart_base_fields self) (Chart._optional_args self).
Proof.
  intros Hattr. exists (Chart._optional_args self ∪ chart_base_fields self).
  split; [by apply Chart_json_base|].
  rewrite <- update_union. apply update_merged_over.
Qed.

(** A chart in use, that is [__init__] followed by any calls, always has
    a structure: its base fields under the extra options it was built
    with. *)
Lemma Chart_json_in_use (text subtext : pyval) (axis_enabled : bool) (animation : pyval)
    (kwargs : dict) (cs : list call) :
  ∃ d,
    Chart.json (chart_after cs (Chart.__init__ text subtext axis_enabled animation kwargs))
      = Ok d ∧
    merged_over d
      (chart_base_fields
         (chart_after cs (Chart.__init__ text subtext axis_enabled animation kwargs)))
      kwargs.
Proof.
  destruct (Chart_json_merged_over
    (chart_after cs (Chart.__init__ text subtext axis_enabled animation kwargs)))
    as (d & Hd & Hm); [apply chart_after_axis_attributes|].
  exists d. split; [exact Hd|].
  destruct (chart_after_same_settings cs
    (Chart.__init__ text subtext axis_enabled animation kwargs)) as (_&_&_&_&Hk).
  by rewrite Hk in Hm.
Qed.

(** ** Looking up the base fields of a chart *)

Lemma chart_base_fields_xAxis (self : Chart.t) :
  Chart._axis_enabled self = true →
  chart_base_fields self !! "xAxis" =
    Some (axes_structure (default [] (Chart._x_axis self))).
Proof.
  intros He. unfold chart_base_fields. rewrite He.
  apply lookup_union_Some_l. by rewrite lookup_insert_eq.
Qed.

Lemma chart_base_fields_yAxis (self : Chart.t) :
  Chart._axis_enabled self = true →
  chart_base_fields self !! "yAxis" =
    Some (axes_structure (default [] (Chart._y_axis self))).
Proof.
  intros He. unfold chart_base_fields. rewrite He.
  apply lookup_union_Some_l. by rewrite lookup_insert_ne, lookup_singleton_eq.
Qed.

(** Under any key but those of the axes, of the title and of the
    animation, the base fields hold what the slot of that name holds. *)
Lemma chart_base_fields_slot (self : Chart.t) (key : string) :
  key ≠ "xAxis" → key ≠ "yAxis" → key ≠ "title" → key ≠ "animation" →
  chart_base_fields self !! key =
    match Chart._components self !! key with
    | Some (Some c) => Some (PDict (component_json c))
    | _ => None
    end.
Proof.
  intros Hx Hy Ht Ha. unfold chart_base_fields.
  rewrite lookup_union_r.
  - rewrite lookup_union_l; [apply held_structures_lookup|].
    by rewrite lookup_insert_ne, lookup_singleton_ne.
  - destruct (Chart._axis_enabled self); [|apply lookup_empty].
    by rewrite lookup_insert_ne, lookup_singleton_ne.
Qed.

Lemma axes_structure_nonempty (axes : list Axis.t) :
  ∃ first rest, axes_structure axes = PList (first :: rest).
Proof. destruct axes as [|a axes]; simpl; eauto. Qed.

(** ** The slots after a sequence of calls *)

Lemma last_offered_snoc (key : string) (cs : list call) (c : call) :
  last_offered key (cs ++ [c]) =
    match offered_for key c with
    | Some x => Some x
    | None => last_offered key cs
    end.
Proof.
  unfold last_offered. rewrite omap_app. simpl.
  destruct (offered_for key c) as [x|]; simpl.
  - apply last_snoc.
  - by rewrite (right_id_L [] (++)).
Qed.

Lemma chart_after_snoc (cs : list call) (c : call) (self : Chart.t) :
  chart_after (cs ++ [c]) self = (step c (chart_after cs self)).2.
Proof. by rewrite chart_after_app, chart_after_cons. Qed.

Lemma step_components (c : call) (self : Chart.t) (key : string) :
  Chart._components (step c self).2 !! key =
    match offered_for key c with
    | Some x => Some (Some x)
    | None => Chart._components self !! key
    end.
Proof.
  destruct c as [[[s|l|t|a]|v]|]; simpl; try done.
  - destruct (decide (Some "series" = Some key)) as [[= <-]|Hne].
    + apply lookup_insert_eq.
    + rewrite lookup_insert_ne; [done|congruence].
  - destruct (decide (Some "legend" = Some key)) as [[= <-]|Hne].
    + apply lookup_insert_eq.
    + rewrite lookup_insert_ne; [done|congruence].
  - destruct (decide (Some "tooltip" = Some key)) as [[= <-]|Hne].
    + apply lookup_insert_eq.
    + rewrite lookup_insert_ne; [done|congruence].
  - destruct (Axis.x_axis a).
    + by destruct (Chart._x_axis self).
    + by destruct (Chart._y_axis self).
  - by destruct (Chart.json self).
Qed.

Lemma chart_after_components (cs : list call) (self : Chart.t) (key : string) :
  Chart._components (chart_after cs self) !! key =
    match last_offered key cs with
    | Some x => Some (Some x)
    | None => Chart._components self !! key
    end.
Proof.
  induction cs as [|c cs IH] using rev_ind; [done|].
  rewrite chart_after_snoc, step_components, last_offered_snoc.
  by destruct (offered_for key c).
Qed.

Lemma offered_for_slot (key : string) (c : call) (x : component) :
  offered_for key c = Some x → slot_of x = Some key.
Proof.
  destruct c as [[y|v]|]; simpl; try done.
  destruct (decide (slot_of y = Some key)); [|done]. by intros [= <-].
Qed.

Lemma last_offered_slot (key : string) (cs : list call) (x : component) :
  last_offered key cs = Some x → slot_of x = Some key.
Proof.
  induction cs as [|c cs IH] using rev_ind; [done|].
  rewrite last_offered_snoc.
  destruct (offered_for key c) as [y|] eqn:Hy; [|done].
  intros [= <-]. by eapply offered_for_slot.
Qed.

Lemma last_offered_other (key : string) (cs : list call) :
  key ≠ "series" → key ≠ "legend" → key ≠ "tooltip" → last_offered key cs = None.
Proof.
  intros Hs Hl Ht. destruct (last_offered key cs) as [x|] eqn:Hx; [|done].
  apply last_offered_slot in Hx. destruct x; simpl in Hx; congruence.
Qed.

(** The structure of a chart in use, key by key. *)
Lemma Chart_json_lookup_in_use (text subtext : pyval) (axis_enabled : bool)
    (animation : pyval) (kwargs : dict) (cs : list call) :
  ∃ d,
    Chart.json (chart_after cs (Chart.__init__ text subtext axis_enabled animation kwargs))
      = Ok d ∧
    ∀ key,
      d !! key =
        match kwargs !! key with
        | Some v => Some v
        | None => expected_base text subtext axis_enabled animation cs key
        end.
Proof.
  destruct (Chart_json_in_use text subtext axis_enabled animation kwargs cs)
    as (d & Hd & _ & Hextra & Hbase).
  exists d. split; [exact Hd|]. intros key.
  destruct (kwargs !! key) as [v|] eqn:Hv; [by apply Hextra|].
  rewrite Hbase by done. clear Hextra Hbase Hd Hv d.
  set (self0 := Chart.__init__ text subtext axis_enabled animation kwargs).
  destruct (chart_after_same_settings cs self0) as (Ht & Hs & He & Ha & _).
  simpl in Ht, Hs, He, Ha. unfold expected_base.
  destruct (decide (key = "xAxis")) as [->|Hx].
  { destruct axis_enabled.
    - rewrite chart_base_fields_xAxis by done.
      by destruct (chart_after_axes_enabled cs self0 [] [] eq_refl eq_refl) as [-> _].
    - unfold chart_base_fields. rewrite He, (left_id_L ∅ (∪)).
      rewrite lookup_union_r.
      + by rewrite lookup_insert_ne, lookup_singleton_ne.
      + rewrite held_structures_lookup, chart_after_components.
        by rewrite last_offered_other. }
  destruct (decide (key = "yAxis")) as [->|Hy].
  { destruct axis_enabled.
    - rewrite chart_base_fields_yAxis by done.
      by destruct (chart_after_axes_enabled cs self0 [] [] eq_refl eq_refl) as [_ ->].
    - unfold chart_base_fields. rewrite He, (left_id_L ∅ (∪)).
      rewrite lookup_union_r.
      + by rewrite lookup_insert_ne, lookup_singleton_ne.
      + rewrite held_structures_lookup, chart_after_components.
        by rewrite last_offered_other. }
  assert (chart_base_fields (chart_after cs self0) !! key =
    (held_structures (Chart._components (chart_after cs self0)) ∪
       ({[ "title" := PDict {[ "text" := text; "subtext" := subtext ]};
           "animation" := animation ]} : dict)) !! key) as ->.
  { unfold chart_base_fields. rewrite Ht, Hs, Ha. apply lookup_union_r.
    destruct (Chart._axis_enabled _); [|apply lookup_empty].
    by rewrite lookup_insert_ne, lookup_singleton_ne. }
  destruct (decide (key = "title")) as [->|Ht'].
  { rewrite lookup_union_r; [by rewrite lookup_insert_eq|].
    rewrite held_structures_lookup, chart_after_components.
    by rewrite last_offered_other. }
  destruct (decide (key = "animation")) as [->|Ha'].
  { rewrite lookup_union_r; [by rewrite lookup_insert_ne, lookup_singleton_eq|].
    rewrite held_structures_lookup, chart_after_components.
    by rewrite last_offered_other. }
  rewrite lookup_union_l by (by rewrite lookup_insert_ne, lookup_singleton_ne).
  rewrite held_structures_lookup, chart_after_components.
  destruct (last_offered key cs) as [x|] eqn:Hlast; [done|].
  simpl. unfold self0. simpl.
  destruct (decide (key = "legend")) as [->|]; [done|].
  destruct (decide (key = "tooltip")) as [->|]; [done|].
  destruct (decide (key = "series")) as [->|]; [done|].
  destruct (decide (key = "toolbox")) as [->|]; [done|].
  destruct (decide (key = "visualMap")) as [->|]; [done|].
  by rewrite !lookup_insert_ne, lookup_singleton_ne.
Qed.

(** ** The chain of [isinstance] tests *)

Lemma isinstance_own (c : component) (others : list class) :
  isinstance (Derived c others) (class_of c) = true.
Proof. simpl. apply bool_decide_eq_true. apply elem_of_cons. by left. Qed.

Lemma isinstance_Derived (x : argument) (C : class) :
  isinstance x C = true → ∃ c others, x = Derived c others.
Proof. destruct x as [c others|v]; [eauto|done]. Qed.

(** On an instance of one class only, and on a value that is no
    component, the chain is the case analysis of [Chart.add_component]. *)
Lemma add_component_as_argument (o : object) (self : Chart.t) :
  Chart.add_component o self = Chart.add_component_isinstance (as_argument o) self.
Proof. by destruct o as [[s|l|t|a]|v]. Qed.

Lemma add_component_isinstance_series (x : argument) (self : Chart.t) :
  isinstance x Class_Series = true →
  ∃ c others, x = Derived c others ∧
    Chart.add_component_isinstance x self =
      (Ok tt, Chart.set_component "series" c self).
Proof.
  intros HS. destruct (isinstance_Derived x _ HS) as (c & others & ->).
  exists c, others. split; [done|].
  unfold Chart.add_component_isinstance, add_component_branch. by rewrite HS.
Qed.

Lemma add_component_isinstance_legend (x : argument) (self : Chart.t) :
  isinstance x Class_Series = false →
  isinstance x Class_Legend = true →
  ∃ c others, x = Derived c others ∧
    Chart.add_component_isinstance x self =
      (Ok tt, Chart.set_component "legend" c self).
Proof.
  intros HS HL. destruct (isinstance_Derived x _ HL) as (c & others & ->).
  exists c, others. split; [done|].
  unfold Chart.add_component_isinstance, add_component_branch. by rewrite HS, HL.
Qed.

Lemma add_component_isinstance_tooltip (x : argument) (self : Chart.t) :
  isinstance x Class_Series = false →
  isinstance x Class_Legend = false →
  isinstance x Class_Tooltip = true →
  ∃ c others, x = Derived c others ∧
    Chart.add_component_isinstance x self =
      (Ok tt, Chart.set_component "tooltip" c self).
Proof.
  intros HS HL HT. destruct (isinstance_Derived x _ HT) as (c & others & ->).
  exists c, others. split; [done|].
  unfold Chart.add_component_isinstance, add_component_branch. by rewrite HS, HL, HT.
Qed.

Lemma add_component_isinstance_axis (x : argument) (self : Chart.t) :
  isinstance x Class_Series = false →
  isinstance x Class_Legend = false →
  isinstance x Class_Tooltip = false →
  isinstance x Class_Axis = true →
  ∃ a others, x = Derived (CAxis a) others ∧
    Chart.add_component_isinstance x self =
      Chart.add_component (Instance_of (CAxis a)) self.
Proof.
  intros HS HL HT HA. destruct (isinstance_Derived x _ HA) as (c & others & ->).
  assert (Hown := isinstance_own c others).
  destruct c as [s|l|t|a]; simpl class_of in Hown; try congruence.
  exists a, others. split; [done|].
  unfold Chart.add_component_isinstance, add_component_branch.
  by rewrite HS, HL, HT, HA.
Qed.

Lemma add_component_isinstance_refused (x : argument) (self : Chart.t) :
  isinstance x Class_Series = false →
  isinstance x Class_Legend = false →
  isinstance x Class_Tooltip = false →
  isinstance x Class_Axis = false →
  (∃ v, x = Plain_value v) ∧
  Chart.add_component_isinstance x self = (Raise (TypeError NoSuchComponent), self).
Proof.
  intros HS HL HT HA. split.
  - destruct x as [c others|v]; [|eauto].
    assert (Hown := isinstance_own c others).
    destruct c; simpl class_of in Hown; congruence.
  - unfold Chart.add_component_isinstance, add_component_branch.
    rewrite HS, HL, HT, HA. by destruct x.
Qed.

Lemma add_component_failure (component : object) (self : Chart.t) (e : exn) :
  (Chart.add_component component self).1 = Raise e →
  (Chart.add_component component self).2 = self.
Proof.
  destruct component as [[s|l|t|a]|v]; simpl; try done.
  destruct (Axis.x_axis a).
  - by destruct (Chart._x_axis self).
  - by destruct (Chart._y_axis self).
Qed.

Lemma add_component_isinstance_failure (x : argument) (self : Chart.t) (e : exn) :
  (Chart.add_component_isinstance x self).1 = Raise e →
  (Chart.add_component_isinstance x self).2 = self.
Proof.
  destruct (isinstance x Class_Series) eqn:HS.
  { destruct (add_component_isinstance_series x self HS) as (c & o & _ & ->). done. }
  destruct (isinstance x Class_Legend) eqn:HL.
  { destruct (add_component_isinstance_legend x self HS HL) as (c & o & _ & ->). done. }
  destruct (isinstance x Class_Tooltip) eqn:HT.
  { destruct (add_component_isinstance_tooltip x self HS HL HT) as (c & o & _ & ->). done. }
  destruct (isinstance x Class_Axis) eqn:HA.
  { destruct (add_component_isinstance_axis x self HS HL HT HA) as (a & o & _ & ->).
    apply add_component_failure. }
  destruct (add_component_isinstance_refused x self HS HL HT HA) as (_ & ->). done.
Qed.

(** * The claims *)

(** C1. Every enumerated field is checked at construction: the type of a
    [Series], the type of an [Axis], the orient of a [Legend] and the
    trigger of a [Tooltip]. A value outside the declared list makes
    [__init__] raise the [TypeError] of [_check_valid], naming the value
    and the list; a member of the list makes it return the object, with
    the value stored as given. *)
Theorem C1_enumerated_fields_validated :
  (∀ name data kwargs,
      (∀ s, s ∈ Series.DEFAULT_TYPES →
         Series.__init__ (PStr s) name data kwargs =
           Ok (Series.mk (PStr s) name data kwargs)) ∧
      (∀ v, (∀ s, s ∈ Series.DEFAULT_TYPES → v ≠ PStr s) →
         Series.__init__ v name data kwargs =
           Raise (TypeError (NotInSupportList v Series.DEFAULT_TYPES)))) ∧
  (∀ name pos data kwargs,
      (∀ s, s ∈ Axis.SUPPORTED_TYPE →
         Axis.__init__ (PStr s) name pos data kwargs =
           Ok (Axis.mk (PStr s) pos name data kwargs)) ∧
      (∀ v, (∀ s, s ∈ Axis.SUPPORTED_TYPE → v ≠ PStr s) →
         Axis.__init__ v name pos data kwargs =
           Raise (TypeError (NotInSupportList v Axis.SUPPORTED_TYPE)))) ∧
  (∀ position data assigned_type kwargs,
      (∀ s, s ∈ Legend.SUPPORTED_ORIENT →
         Legend.__init__ position data assigned_type (PStr s) kwargs =
           Ok (Legend.mk data (PStr s) assigned_type position kwargs)) ∧
      (∀ v, (∀ s, s ∈ Legend.SUPPORTED_ORIENT → v ≠ PStr s) →
         Legend.__init__ position data assigned_type v kwargs =
           Raise (TypeError (NotInSupportList v Legend.SUPPORTED_ORIENT)))) ∧
  (∀ axis_pointer_type kwargs,
      (∀ s, s ∈ Tooltip.TRIGGERS →
         Tooltip.__init__ (PStr s) axis_pointer_type kwargs =
           Ok (Tooltip.mk (PStr s) axis_pointer_type kwargs)) ∧
      (∀ v, (∀ s, s ∈ Tooltip.TRIGGERS → v ≠ PStr s) →
         Tooltip.__init__ v axis_pointer_type kwargs =
           Raise (TypeError (NotInSupportList v Tooltip.TRIGGERS)))).
Proof.
  repeat split; intros;
    unfold Series.__init__, Axis.__init__, Legend.__init__, Tooltip.__init__;
    first [ by rewrite _check_valid_member | by rewrite _check_valid_outside ].
Qed.

(** C1, at concrete values: ["bar"] is a series type and ["donut"] is
    none; [PInt 3] is no trigger. *)
Lemma C1_enumerated_fields_witness :
  Series.__init__ (PStr "bar") (PStr "S1") PNone ∅ =
    Ok (Series.mk (PStr "bar") (PStr "S1") PNone ∅) ∧
  Series.__init__ (PStr "donut") (PStr "S1") PNone ∅ =
    Raise (TypeError (NotInSupportList (PStr "donut") Series.DEFAULT_TYPES)) ∧
  Tooltip.__init__ (PInt 3) (PStr "line") ∅ =
    Raise (TypeError (NotInSupportList (PInt 3) Tooltip.TRIGGERS)).
Proof.
  destruct C1_enumerated_fields_validated as (HS & _ & _ & HT).
  destruct (HS (PStr "S1") PNone ∅) as [Hin Hout].
  destruct (HT (PStr "line") ∅) as [_ HTout].
  split; [|split].
  - apply Hin. apply (bool_decide_unpack _). by vm_compute.
  - apply Hout. intros s Hs [= <-]. revert Hs.
    apply (proj1 (bool_decide_eq_false _)). by vm_compute.
  - apply HTout. intros s _. discriminate.
Defined.

(** C2. The structure of every entity is its base fields with the extra
    options merged on top, the extra options winning on every key they
    have: for a series, an axis, a legend and a tooltip in any state,
    and for a chart after any sequence of calls, where the base fields
    are the title, the animation, the held components and the axis
    arrays. *)
Theorem C2_extra_options_take_precedence :
  (∀ self : Series.t,
     merged_over (Series.json self) (series_base_fields self) (Series._optional_args self)) ∧
  (∀ self : Axis.t,
     merged_over (Axis.json self) (axis_base_fields self) (Axis._optional_args self)) ∧
  (∀ self : Legend.t,
     merged_over (Legend.json self) (legend_base_fields self) (Legend._optional_args self)) ∧
  (∀ self : Tooltip.t,
     merged_over (Tooltip.json self) (tooltip_base_fields self) (Tooltip._optional_args self)) ∧
  (∀ text subtext axis_enabled animation kwargs cs,
     ∃ d,
       Chart.json (chart_after cs (Chart.__init__ text subtext axis_enabled animation kwargs))
         = Ok d ∧
       merged_over d
         (chart_base_fields
            (chart_after cs (Chart.__init__ text subtext axis_enabled animation kwargs)))
         kwargs).
Proof.
  repeat split; try apply update_merged_over.
  apply Chart_json_in_use.
Qed.

(** C2, at a bar series given the extra option [type="line"], and at a
    chart given an extra title. *)
Lemma C2_extra_options_witness :
  Series.json (Series.mk (PStr "bar") (PStr "A") PNone {[ "type" := PStr "line" ]})
    !! "type" = Some (PStr "line") ∧
  ∃ d, Chart.json (Chart.__init__ (PStr "t") (PStr "s") true (PBool true)
                     {[ "title" := PStr "mine" ]}) = Ok d ∧
       d !! "title" = Some (PStr "mine").
Proof.
  destruct C2_extra_options_take_precedence as (HS & _ & _ & _ & HC).
  split.
  - apply (HS (Series.mk (PStr "bar") (PStr "A") PNone {[ "type" := PStr "line" ]})).
    reflexivity.
  - destruct (HC (PStr "t") (PStr "s") true (PBool true) {[ "title" := PStr "mine" ]} [])
      as (d & Hd & Hm).
    exists d. split; [exact Hd|]. by apply Hm.
Defined.

(** C3. An axis is horizontal exactly when its position is ["top"] or
    ["bottom"]; [y_axis] is the negation of [x_axis]; so a position that
    is none of the four declared ones, whatever value it is, makes the
    axis vertical. [__init__] stores any position as given, so such an
    axis can be built. *)
Theorem C3_axis_orientation (self : Axis.t) :
  (Axis.x_axis self = true ↔
     Axis._pos self = PStr "top" ∨ Axis._pos self = PStr "bottom") ∧
  Axis.y_axis self = negb (Axis.x_axis self) ∧
  ((∀ s, s ∈ SUPPORTED_POS → Axis._pos self ≠ PStr s) →
     Axis.x_axis self = false ∧ Axis.y_axis self = true) ∧
  (∀ name pos data kwargs,
     ∃ a, Axis.__init__ (PStr "value") name pos data kwargs = Ok a ∧
          Axis._pos a = pos).
Proof.
  assert (Axis.x_axis self = true ↔
     Axis._pos self = PStr "top" ∨ Axis._pos self = PStr "bottom") as Hx.
  { unfold Axis.x_axis. destruct (py_in _ _) eqn:Hin.
    - apply py_in_true in Hin as (s & -> & Hs). split; [intros _|done].
      apply elem_of_cons in Hs as [->|Hs]; [by right|].
      apply elem_of_cons in Hs as [->|Hs]; [by left|].
      by apply elem_of_nil in Hs.
    - split; [done|]. intros Hpos.
      assert (py_in (Axis._pos self) ["bottom"; "top"] = true) as Hin'
        by (destruct Hpos as [-> | ->]; reflexivity).
      congruence. }
  split; [exact Hx|]. split; [reflexivity|]. split.
  - intros Hout.
    assert (Axis.x_axis self = false) as Hf.
    { apply not_true_iff_false. intros [H|H]%Hx.
      - apply (Hout "top"); [|done]. apply (bool_decide_unpack _). by vm_compute.
      - apply (Hout "bottom"); [|done]. apply (bool_decide_unpack _). by vm_compute. }
    unfold Axis.y_axis. by rewrite Hf.
  - intros name pos data kwargs.
    exists (Axis.mk (PStr "value") pos name data kwargs). split; [|reflexivity].
    unfold Axis.__init__. rewrite _check_valid_member; [reflexivity|].
    apply (bool_decide_unpack _). by vm_compute.
Qed.

(** C3, at the axis whose position is the string ["diagonal"], and at
    the one whose position is the number 7. *)
Lemma C3_axis_orientation_witness :
  Axis.y_axis (Axis.mk (PStr "value") (PStr "diagonal") (PStr "n") PNone ∅) = true ∧
  Axis.y_axis (Axis.mk (PStr "value") (PInt 7) (PStr "n") PNone ∅) = true.
Proof.
  split.
  - refine (proj2 (proj1 (proj2 (proj2 (C3_axis_orientation _))) _)).
    simpl. intros s Hs [= <-]. revert Hs.
    apply (proj1 (bool_decide_eq_false _)). by vm_compute.
  - refine (proj2 (proj1 (proj2 (proj2 (C3_axis_orientation _))) _)).
    simpl. intros s _. discriminate.
Defined.

(** C4, as stated, fails: a chart built with the axis enabled and the
    extra option [xAxis=[]], with no call made on it, has the empty
    array under ["xAxis"], which is not [[{}]]. *)
Lemma C4_extra_xAxis_counterexample :
  let self := Chart.__init__ (PStr "t") (PStr "s") true (PBool true)
                {[ "xAxis" := PList [] ]} in
  Chart._axis_enabled self = true ∧
  ∃ d, Chart.json self = Ok d ∧
       d !! "xAxis" = Some (PList []) ∧
       d !! "xAxis" ≠ Some (PList [PDict ∅]).
Proof.
  simpl. split; [reflexivity|].
  destruct (Chart_json_in_use (PStr "t") (PStr "s") true (PBool true)
    {[ "xAxis" := PList [] ]} []) as (d & Hd & _ & Hextra & _).
  exists d. split; [exact Hd|].
  rewrite (Hextra "xAxis" (PList [])) by reflexivity.
  split; [reflexivity|discriminate].
Qed.

(** C4, amended. A chart built with the axis enabled has, after any
    sequence of calls, both keys ["xAxis"] and ["yAxis"] in its
    structure. Under each, an extra option of that name wins; without
    one, the value is the array of the structures of the horizontal
    (vertical) axes accepted so far, and [[{}]] when there is none, so
    it is never the empty array. *)
Theorem C4_axis_arrays_when_enabled (text subtext animation : pyval) (kwargs : dict)
    (cs : list call) :
  ∃ d,
    Chart.json (chart_after cs (Chart.__init__ text subtext true animation kwargs)) = Ok d ∧
    d !! "xAxis" = Some (default (axes_structure (offered_axes true cs)) (kwargs !! "xAxis")) ∧
    d !! "yAxis" = Some (default (axes_structure (offered_axes false cs)) (kwargs !! "yAxis")) ∧
    (kwargs !! "xAxis" = None →
       (offered_axes true cs = [] → d !! "xAxis" = Some (PList [PDict ∅])) ∧
       ∃ first rest, d !! "xAxis" = Some (PList (first :: rest))) ∧
    (kwargs !! "yAxis" = None →
       (offered_axes false cs = [] → d !! "yAxis" = Some (PList [PDict ∅])) ∧
       ∃ first rest, d !! "yAxis" = Some (PList (first :: rest))).
Proof.
  destruct (Chart_json_in_use text subtext true animation kwargs cs)
    as (d & Hd & _ & Hextra & Hbase).
  set (self0 := Chart.__init__ text subtext true animation kwargs) in *.
  destruct (chart_after_same_settings cs self0) as (_&_&He&_&_). simpl in He.
  destruct (chart_after_axes_enabled cs self0 [] [] eq_refl eq_refl) as [Hxs Hys].
  simpl in Hxs, Hys.
  assert (d !! "xAxis" =
    Some (default (axes_structure (offered_axes true cs)) (kwargs !! "xAxis"))) as Hx.
  { destruct (kwargs !! "xAxis") as [v|] eqn:Hv; simpl.
    - by apply Hextra.
    - by rewrite Hbase, chart_base_fields_xAxis, Hxs. }
  assert (d !! "yAxis" =
    Some (default (axes_structure (offered_axes false cs)) (kwargs !! "yAxis"))) as Hy.
  { destruct (kwargs !! "yAxis") as [v|] eqn:Hv; simpl.
    - by apply Hextra.
    - by rewrite Hbase, chart_base_fields_yAxis, Hys. }
  exists d. split; [exact Hd|]. split; [exact Hx|]. split; [exact Hy|]. split.
  - intros Hnone. rewrite Hnone in Hx. simpl in Hx. split.
    + intros Hnil. by rewrite Hx, Hnil.
    + destruct (axes_structure_nonempty (offered_axes true cs)) as (v & l & Hv).
      exists v, l. by rewrite Hx, Hv.
  - intros Hnone. rewrite Hnone in Hy. simpl in Hy. split.
    + intros Hnil. by rewrite Hy, Hnil.
    + destruct (axes_structure_nonempty (offered_axes false cs)) as (v & l & Hv).
      exists v, l. by rewrite Hy, Hv.
Qed.

(** C4, amended, at a chart that accepted a bottom axis and a left one:
    each array holds the structure of its one axis. *)
Lemma C4_axis_arrays_witness :
  let bottom := Axis.mk (PStr "category") (PStr "bottom") (PStr "x") PNone ∅ in
  let left := Axis.mk (PStr "value") (PStr "left") (PStr "y") PNone ∅ in
  ∃ d,
    Chart.json
      (chart_after [Call_add_component (Instance_of (CAxis bottom));
                    Call_add_component (Instance_of (CAxis left))]
         (Chart.__init__ (PStr "t") (PStr "s") true (PBool true) ∅)) = Ok d ∧
    d !! "xAxis" = Some (PList [PDict (Axis.json bottom)]) ∧
    d !! "yAxis" = Some (PList [PDict (Axis.json left)]).
Proof.
  intros bottom left.
  destruct (C4_axis_arrays_when_enabled (PStr "t") (PStr "s") (PBool true) ∅
    [Call_add_component (Instance_of (CAxis bottom));
     Call_add_component (Instance_of (CAxis left))]) as (d & Hd & Hx & Hy & _).
  exists d. split; [exact Hd|]. split; [exact Hx|exact Hy].
Defined.

(** C5. [add_component] sorts what it is given by class, testing for a
    series first, then a legend, then a tooltip, then an axis, and the
    first test that holds decides: an instance of [Series], whatever
    else it is an instance of, is put in the slot ["series"]; failing
    that an instance of [Legend] in the slot ["legend"]; failing that
    an instance of [Tooltip] in the slot ["tooltip"]; failing that an
    instance of [Axis] is appended to [_x_axis] when [x_axis()] holds
    and to [_y_axis] otherwise; anything else raises the [TypeError]
    "does not have this component". A slot is assigned and nothing else
    changes. Whenever the call raises, the chart is left as it was. On
    instances of one class the chain is [Chart.add_component]. *)
Theorem C5_add_component_classifies (self : Chart.t) :
  (∀ s, Chart.add_component (Instance_of (CSeries s)) self =
          (Ok tt, Chart.set_component "series" (CSeries s) self)) ∧
  (∀ l, Chart.add_component (Instance_of (CLegend l)) self =
          (Ok tt, Chart.set_component "legend" (CLegend l) self)) ∧
  (∀ t, Chart.add_component (Instance_of (CTooltip t)) self =
          (Ok tt, Chart.set_component "tooltip" (CTooltip t) self)) ∧
  (∀ key c,
     Chart._components (Chart.set_component key c self) =
       <[key := Some c]> (Chart._components self) ∧
     Chart._x_axis (Chart.set_component key c self) = Chart._x_axis self ∧
     Chart._y_axis (Chart.set_component key c self) = Chart._y_axis self ∧
     same_settings self (Chart.set_component key c self)) ∧
  (∀ a xs, Axis.x_axis a = true → Chart._x_axis self = Some xs →
     ∃ self', Chart.add_component (Instance_of (CAxis a)) self = (Ok tt, self') ∧
       Chart._x_axis self' = Some (xs ++ [a]) ∧
       Chart._y_axis self' = Chart._y_axis self ∧
       Chart._components self' = Chart._components self ∧
       same_settings self self') ∧
  (∀ a ys, Axis.x_axis a = false → Chart._y_axis self = Some ys →
     ∃ self', Chart.add_component (Instance_of (CAxis a)) self = (Ok tt, self') ∧
       Chart._y_axis self' = Some (ys ++ [a]) ∧
       Chart._x_axis self' = Chart._x_axis self ∧
       Chart._components self' = Chart._components self ∧
       same_settings self self') ∧
  (∀ v, Chart.add_component (Other v) self = (Raise (TypeError NoSuchComponent), self)) ∧
  (∀ component e,
     (Chart.add_component component self).1 = Raise e →
     (Chart.add_component component self).2 = self) ∧
  (∀ o, Chart.add_component o self = Chart.add_component_isinstance (as_argument o) self) ∧
  (∀ x, isinstance x Class_Series = true →
     ∃ c others, x = Derived c others ∧
       Chart.add_component_isinstance x self =
         (Ok tt, Chart.set_component "series" c self)) ∧
  (∀ x, isinstance x Class_Series = false →
        isinstance x Class_Legend = true →
     ∃ c others, x = Derived c others ∧
       Chart.add_component_isinstance x self =
         (Ok tt, Chart.set_component "legend" c self)) ∧
  (∀ x, isinstance x Class_Series = false →
        isinstance x Class_Legend = false →
        isinstance x Class_Tooltip = true →
     ∃ c others, x = Derived c others ∧
       Chart.add_component_isinstance x self =
         (Ok tt, Chart.set_component "tooltip" c self)) ∧
  (∀ x, isinstance x Class_Series = false →
        isinstance x Class_Legend = false →
        isinstance x Class_Tooltip = false →
        isinstance x Class_Axis = true →
     ∃ a others, x = Derived (CAxis a) others ∧
       Chart.add_component_isinstance x self =
         Chart.add_component (Instance_of (CAxis a)) self) ∧
  (∀ x, isinstance x Class_Series = false →
        isinstance x Class_Legend = false →
        isinstance x Class_Tooltip = false →
        isinstance x Class_Axis = false →
     (∃ v, x = Plain_value v) ∧
     Chart.add_component_isinstance x self = (Raise (TypeError NoSuchComponent), self)) ∧
  (∀ x e,
     (Chart.add_component_isinstance x self).1 = Raise e →
     (Chart.add_component_isinstance x self).2 = self).
Proof.
  split; [done|]. split; [done|]. split; [done|]. split; [done|].
  split.
  { intros a xs Ha Hx. exists (Chart.set_x_axis (xs ++ [a]) self).
    simpl. rewrite Ha, Hx. done. }
  split.
  { intros a ys Ha Hy. exists (Chart.set_y_axis (ys ++ [a]) self).
    simpl. rewrite Ha, Hy. done. }
  split; [done|].
  split; [intros component e; apply add_component_failure|].
  split; [intros o; apply add_component_as_argument|].
  split; [intros x; apply add_component_isinstance_series|].
  split; [intros x; apply add_component_isinstance_legend|].
  split; [intros x; apply add_component_isinstance_tooltip|].
  split; [intros x; apply add_component_isinstance_axis|].
  split; [intros x; apply add_component_isinstance_refused|].
  intros x e. apply add_component_isinstance_failure.
Qed.

(** C5, on a new chart with the axis enabled. An instance of a class
    deriving from [Legend] and [Series], which has the structure of a
    legend, goes to the series slot, the first test deciding, and the
    legend slot stays empty; so does an instance of a class deriving
    from [Axis] and [Series]. A bar made by [Bar.__init__] goes to the
    series slot, a top axis to [_x_axis], and a number is refused with
    the chart unchanged. *)
Lemma C5_add_component_witness :
  let self := Chart.__init__ (PStr "t") (PStr "s") true (PBool true) ∅ in
  let top := Axis.mk (PStr "value") (PStr "top") (PStr "x") PNone ∅ in
  let legend := Legend.mk PNone (PStr "vertical") (PStr "plain") (PInt 0, PInt 0) ∅ in
  (∃ self',
     Chart.add_component_isinstance (Derived (CLegend legend) [Class_Series]) self =
       (Ok tt, self') ∧
     Chart._components self' !! "series" = Some (Some (CLegend legend)) ∧
     Chart._components self' !! "legend" = Some None) ∧
  (∃ self',
     Chart.add_component_isinstance (Derived (CAxis top) [Class_Series]) self =
       (Ok tt, self') ∧
     Chart._components self' !! "series" = Some (Some (CAxis top)) ∧
     Chart._x_axis self' = Some []) ∧
  (∃ bar, Bar.__init__ (PStr "S1") PNone ∅ = Ok bar ∧
     Chart._components (Chart.add_component (Instance_of (CSeries bar)) self).2
       !! "series" = Some (Some (CSeries bar))) ∧
  (∃ self', Chart.add_component (Instance_of (CAxis top)) self = (Ok tt, self') ∧
     Chart._x_axis self' = Some [top]) ∧
  Chart.add_component (Other (PInt 5)) self = (Raise (TypeError NoSuchComponent), self).
Proof.
  intros self top legend.
  destruct (C5_add_component_classifies self)
    as (HS & _ & _ & Hset & Hx & _ & Ho & _ & _ & Hseries & _).
  split; [|split; [|split; [|split]]].
  - destruct (Hseries (Derived (CLegend legend) [Class_Series]) eq_refl)
      as (c & others & [= <- <-] & ->).
    eexists. split; [reflexivity|].
    destruct (Hset "series" (CLegend legend)) as (-> & _).
    split; [apply lookup_insert_eq|]. by rewrite lookup_insert_ne.
  - destruct (Hseries (Derived (CAxis top) [Class_Series]) eq_refl)
      as (c & others & [= <- <-] & ->).
    eexists. split; [reflexivity|].
    destruct (Hset "series" (CAxis top)) as (-> & Hxs & _).
    split; [apply lookup_insert_eq|]. by rewrite Hxs.
  - exists (Series.mk (PStr "bar") (PStr "S1") PNone ∅). split; [reflexivity|].
    rewrite HS. cbn [snd]. destruct (Hset "series"
      (CSeries (Series.mk (PStr "bar") (PStr "S1") PNone ∅))) as (-> & _).
    apply lookup_insert_eq.
  - destruct (Hx top [] eq_refl eq_refl) as (self' & H1 & H2 & _).
    exists self'. by split.
  - apply Ho.
Defined.

(** C6. A second series accepted after a first takes the series slot,
    without any error: both calls return, the chart is then the one it
    would be had only the second been accepted, and so is its
    structure. On a chart in use, the structure has under ["series"] the
    structure of the second series (or the extra option of that name,
    which wins as under every key). *)
Theorem C6_second_series_overwrites (s1 s2 : Series.t) :
  (∀ self,
     replies [Call_add_component (Instance_of (CSeries s1));
              Call_add_component (Instance_of (CSeries s2))] self =
       [Returned_None; Returned_None] ∧
     chart_after [Call_add_component (Instance_of (CSeries s1));
                  Call_add_component (Instance_of (CSeries s2))] self =
       chart_after [Call_add_component (Instance_of (CSeries s2))] self ∧
     Chart._components
       (chart_after [Call_add_component (Instance_of (CSeries s1));
                     Call_add_component (Instance_of (CSeries s2))] self)
       !! "series" = Some (Some (CSeries s2)) ∧
     Chart.json
       (chart_after [Call_add_component (Instance_of (CSeries s1));
                     Call_add_component (Instance_of (CSeries s2))] self) =
     Chart.json (chart_after [Call_add_component (Instance_of (CSeries s2))] self)) ∧
  (∀ text subtext axis_enabled animation kwargs cs,
     ∃ d,
       Chart.json
         (chart_after (cs ++ [Call_add_component (Instance_of (CSeries s1));
                              Call_add_component (Instance_of (CSeries s2))])
            (Chart.__init__ text subtext axis_enabled animation kwargs)) = Ok d ∧
       d !! "series" = Some (default (PDict (Series.json s2)) (kwargs !! "series"))).
Proof.
  assert (∀ self,
     chart_after [Call_add_component (Instance_of (CSeries s1));
                  Call_add_component (Instance_of (CSeries s2))] self =
       chart_after [Call_add_component (Instance_of (CSeries s2))] self) as Hsame.
  { intros self. unfold chart_after. simpl. unfold Chart.set_component. simpl.
    by rewrite insert_insert_eq. }
  split.
  - intros self. split; [reflexivity|]. split; [apply Hsame|].
    split; [|by rewrite Hsame].
    rewrite Hsame. unfold chart_after. simpl. apply lookup_insert_eq.
  - intros text subtext axis_enabled animation kwargs cs.
    set (calls := cs ++ _).
    destruct (Chart_json_in_use text subtext axis_enabled animation kwargs calls)
      as (d & Hd & _ & Hextra & Hbase).
    exists d. split; [exact Hd|].
    destruct (kwargs !! "series") as [v|] eqn:Hv; simpl.
    + by apply Hextra.
    + rewrite Hbase, chart_base_fields_slot by done.
      unfold calls. rewrite chart_after_app, Hsame.
      unfold chart_after at 1. simpl. by rewrite lookup_insert_eq.
Qed.

(** C6, at a line series accepted first and a bar series accepted
    second by a new chart. *)
Lemma C6_second_series_witness :
  let line := Series.mk (PStr "line") (PStr "A") PNone ∅ in
  let bar := Series.mk (PStr "bar") (PStr "B") PNone ∅ in
  ∃ d,
    Chart.json
      (chart_after [Call_add_component (Instance_of (CSeries line));
                    Call_add_component (Instance_of (CSeries bar))]
         (Chart.__init__ (PStr "t") (PStr "s") false (PBool true) ∅)) = Ok d ∧
    d !! "series" = Some (PDict (Series.json bar)).
Proof.
  intros line bar.
  exact (proj2 (C6_second_series_overwrites line bar)
           (PStr "t") (PStr "s") false (PBool true) ∅ []).
Defined.

(** C7. [Tooltip.__init__] passes only the trigger to [_check_valid], and
    [Legend.__init__] only the orient: whatever the axis pointer type of
    a tooltip and whatever the type of a legend, inside or outside
    [Tooltip.AXISPOINTER_TYPES] and [Legend.SUPPORTED_TYPE], the object
    is built and holds the value as given. *)
Theorem C7_pointer_type_and_legend_type_unchecked :
  (∀ trigger axis_pointer_type kwargs,
     trigger ∈ Tooltip.TRIGGERS →
     ∃ t, Tooltip.__init__ (PStr trigger) axis_pointer_type kwargs = Ok t ∧
          Tooltip._axis_pointertype t = axis_pointer_type) ∧
  (∀ position data assigned_type orient kwargs,
     orient ∈ Legend.SUPPORTED_ORIENT →
     ∃ l, Legend.__init__ position data assigned_type (PStr orient) kwargs = Ok l ∧
          Legend._type l = assigned_type).
Proof.
  split.
  - intros trigger apt kwargs Hin.
    exists (Tooltip.mk (PStr trigger) apt kwargs). split; [|reflexivity].
    unfold Tooltip.__init__. by rewrite _check_valid_member.
  - intros position data ty orient kwargs Hin.
    exists (Legend.mk data (PStr orient) ty position kwargs). split; [|reflexivity].
    unfold Legend.__init__. by rewrite _check_valid_member.
Qed.

(** C7, at an axis pointer type and a legend type that are in neither
    declared list. *)
Lemma C7_pointer_type_and_legend_type_witness :
  py_in (PStr "laser") Tooltip.AXISPOINTER_TYPES = false ∧
  py_in (PStr "fancy") Legend.SUPPORTED_TYPE = false ∧
  (∃ t, Tooltip.__init__ (PStr "axis") (PStr "laser") ∅ = Ok t ∧
        Tooltip._axis_pointertype t = PStr "laser") ∧
  (∃ l, Legend.__init__ (PInt 1, PInt 2) PNone (PStr "fancy") (PStr "horizontal") ∅ = Ok l ∧
        Legend._type l = PStr "fancy").
Proof.
  split; [reflexivity|]. split; [reflexivity|]. split.
  - apply (proj1 C7_pointer_type_and_legend_type_unchecked).
    apply (bool_decide_unpack _). by vm_compute.
  - apply (proj2 C7_pointer_type_and_legend_type_unchecked).
    apply (bool_decide_unpack _). by vm_compute.
Defined.

(** C8. Reading the structure changes nothing and gives what the state
    determines. A call of [json] leaves the chart as it was, and a
    [json] call put anywhere in a sequence of calls changes neither the
    chart that results nor any later reply. On a chart in use [json]
    returns a dictionary, which is the base fields of the chart as
    accumulated so far under its extra options: key by key, an extra
    option, or else the title and animation given to [__init__], the
    arrays of the axes accepted so far, and the structure of the last
    component accepted for a slot. Two calls in a row return that same
    dictionary, and a call made after further components were accepted
    returns the dictionary of the chart with these components. The
    structure of a leaf entity is its base fields under its extra
    options, a function of its fields. *)
Theorem C8_json_is_pure (self : Chart.t) :
  (step Call_json self).2 = self ∧
  replies [Call_json; Call_json] self =
    [(step Call_json self).1; (step Call_json self).1] ∧
  chart_after [Call_json; Call_json] self = self ∧
  (∀ cs1 cs2,
     chart_after (cs1 ++ Call_json :: cs2) self = chart_after (cs1 ++ cs2) self) ∧
  (∀ cs,
     last (replies (cs ++ [Call_json]) self) = Some (step Call_json (chart_after cs self)).1) ∧
  (∀ text subtext axis_enabled animation kwargs cs,
     ∃ d,
       Chart.json (chart_after cs (Chart.__init__ text subtext axis_enabled animation kwargs))
         = Ok d ∧
       replies [Call_json; Call_json]
         (chart_after cs (Chart.__init__ text subtext axis_enabled animation kwargs)) =
         [Returned_dict d; Returned_dict d]) ∧
  (∀ c : component,
     component_json c =
       match c with
       | CSeries s => update (series_base_fields s) (Series._optional_args s)
       | CLegend l => update (legend_base_fields l) (Legend._optional_args l)
       | CTooltip t => update (tooltip_base_fields t) (Tooltip._optional_args t)
       | CAxis a => update (axis_base_fields a) (Axis._optional_args a)
       end) ∧
  (∀ text subtext axis_enabled animation kwargs cs1 cs2,
     ∃ d1 d2,
       replies (cs1 ++ Call_json :: Call_json :: (cs2 ++ [Call_json]))
         (Chart.__init__ text subtext axis_enabled animation kwargs) =
         replies cs1 (Chart.__init__ text subtext axis_enabled animation kwargs) ++
         Returned_dict d1 :: Returned_dict d1 ::
         (replies cs2
            (chart_after cs1 (Chart.__init__ text subtext axis_enabled animation kwargs)) ++
          [Returned_dict d2]) ∧
       d1 = kwargs ∪
            chart_base_fields
              (chart_after cs1 (Chart.__init__ text subtext axis_enabled animation kwargs)) ∧
       d2 = kwargs ∪
            chart_base_fields
              (chart_after (cs1 ++ cs2)
                 (Chart.__init__ text subtext axis_enabled animation kwargs)) ∧
       (∀ key,
          d1 !! key =
            match kwargs !! key with
            | Some v => Some v
            | None => expected_base text subtext axis_enabled animation cs1 key
            end) ∧
       (∀ key,
          d2 !! key =
            match kwargs !! key with
            | Some v => Some v
            | None => expected_base text subtext axis_enabled animation (cs1 ++ cs2) key
            end)).
Proof.
  assert (Hstep := step_json self).
  split; [exact Hstep|]. split.
  { by rewrite !replies_cons, Hstep. }
  split.
  { by rewrite !chart_after_cons, Hstep, step_json. }
  split.
  { intros cs1 cs2. by rewrite !chart_after_app, chart_after_cons, step_json. }
  split.
  { intros cs. rewrite replies_app, replies_cons. apply last_snoc. }
  split.
  { intros text subtext axis_enabled animation kwargs cs.
    destruct (Chart_json_in_use text subtext axis_enabled animation kwargs cs)
      as (d & Hd & _).
    exists d. split; [exact Hd|].
    rewrite !replies_cons, !step_json. cbn [step]. by rewrite Hd. }
  split; [by intros [s|l|t|a]|].
  intros text subtext axis_enabled animation kwargs cs1 cs2.
  set (self0 := Chart.__init__ text subtext axis_enabled animation kwargs).
  destruct (Chart_json_in_use text subtext axis_enabled animation kwargs cs1)
    as (d1 & Hd1 & Heq1 & _).
  destruct (Chart_json_in_use text subtext axis_enabled animation kwargs (cs1 ++ cs2))
    as (d2 & Hd2 & Heq2 & _).
  destruct (Chart_json_lookup_in_use text subtext axis_enabled animation kwargs cs1)
    as (d1' & Hd1' & Hlook1).
  destruct (Chart_json_lookup_in_use text subtext axis_enabled animation kwargs (cs1 ++ cs2))
    as (d2' & Hd2' & Hlook2).
  fold self0 in Hd1, Hd2, Hd1', Hd2', Heq1, Heq2.
  rewrite Hd1 in Hd1'. injection Hd1' as <-.
  rewrite Hd2 in Hd2'. injection Hd2' as <-.
  exists d1, d2. split; [|by repeat split].
  rewrite replies_app. f_equal.
  rewrite !replies_cons, !step_json, replies_app. cbn [step]. rewrite Hd1.
  do 3 f_equal.
  rewrite replies_cons, <- chart_after_app. cbn [step]. by rewrite Hd2.
Qed.

(** C8, on a chart that is read twice, accepts a bar series and is read
    again: the two first replies are the same dictionary, without a
    series, and the third has the structure of the series. *)
Lemma C8_json_is_pure_witness :
  let bar := Series.mk (PStr "bar") (PStr "S1") (PList [PInt 1; PInt 2; PInt 3]) ∅ in
  ∃ d1 d2,
    replies [Call_json; Call_json; Call_add_component (Instance_of (CSeries bar)); Call_json]
      (Chart.__init__ (PStr "t") (PStr "s") false (PBool true) ∅) =
      [Returned_dict d1; Returned_dict d1; Returned_None; Returned_dict d2] ∧
    d1 !! "series" = None ∧
    d1 !! "title" = Some (PDict {[ "text" := PStr "t"; "subtext" := PStr "s" ]}) ∧
    d2 !! "series" = Some (PDict (Series.json bar)).
Proof.
  intros bar.
  destruct (C8_json_is_pure (Chart.__init__ (PStr "t") (PStr "s") false (PBool true) ∅))
    as (_ & _ & _ & _ & _ & _ & _ & H).
  destruct (H (PStr "t") (PStr "s") false (PBool true) ∅ []
    [Call_add_component (Instance_of (CSeries bar))])
    as (d1 & d2 & Hreplies & _ & _ & Hlook1 & Hlook2).
  exists d1, d2. split; [exact Hreplies|].
  rewrite !Hlook1, Hlook2. by repeat split.
Defined.



(** C10. After any sequence of calls on a chart, the slots ["toolbox"]
    and ["visualMap"] still hold [None], and the structure has under
    each of these two keys exactly what the extra options have under
    it: nothing, unless the caller gave such an option. *)
Theorem C10_toolbox_and_visualMap_stay_empty (text subtext : pyval) (axis_enabled : bool)
    (animation : pyval) (kwargs : dict) (cs : list call) :
  Chart._components
    (chart_after cs (Chart.__init__ text subtext axis_enabled animation kwargs))
    !! "toolbox" = Some None ∧
  Chart._components
    (chart_after cs (Chart.__init__ text subtext axis_enabled animation kwargs))
    !! "visualMap" = Some None ∧
  ∃ d,
    Chart.json (chart_after cs (Chart.__init__ text subtext axis_enabled animation kwargs))
      = Ok d ∧
    d !! "toolbox" = kwargs !! "toolbox" ∧
    d !! "visualMap" = kwargs !! "visualMap".
Proof.
  set (self0 := Chart.__init__ text subtext axis_enabled animation kwargs).
  assert (Chart._components (chart_after cs self0) !! "toolbox" = Some None) as Ht.
  { by rewrite chart_after_other_slot. }
  assert (Chart._components (chart_after cs self0) !! "visualMap" = Some None) as Hv.
  { by rewrite chart_after_other_slot. }
  split; [exact Ht|]. split; [exact Hv|].
  destruct (Chart_json_in_use text subtext axis_enabled animation kwargs cs)
    as (d & Hd & _ & Hextra & Hbase). fold self0 in Hd, Hbase.
  exists d. split; [exact Hd|]. split.
  - destruct (kwargs !! "toolbox") as [v|] eqn:Hkw.
    + by apply Hextra.
    + by rewrite Hbase, chart_base_fields_slot, Ht.
  - destruct (kwargs !! "visualMap") as [v|] eqn:Hkw.
    + by apply Hextra.
    + by rewrite Hbase, chart_base_fields_slot, Hv.
Qed.

(** C10, on a chart without extra options that accepted a series, a
    legend, a tooltip and an axis. *)
Lemma C10_toolbox_and_visualMap_witness :
  ∃ d,
    Chart.json
      (chart_after
         [Call_add_component (Instance_of (CSeries (Series.mk (PStr "pie") PNone PNone ∅)));
          Call_add_component
            (Instance_of (CLegend (Legend.mk PNone (PStr "vertical") (PStr "plain")
                                     (PInt 0, PInt 0) ∅)));
          Call_add_component (Instance_of (CTooltip (Tooltip.mk (PStr "item") (PStr "line") ∅)));
          Call_add_component
            (Instance_of (CAxis (Axis.mk (PStr "log") (PStr "right") PNone PNone ∅)))]
         (Chart.__init__ (PStr "t") (PStr "s") true (PBool false) ∅)) = Ok d ∧
    d !! "toolbox" = None ∧
    d !! "visualMap" = None.
Proof.
  exact (proj2 (proj2 (C10_toolbox_and_visualMap_stay_empty
                         (PStr "t") (PStr "s") true (PBool false) ∅ _))).
Defined.

(** * Further properties *)

#[local] Set Warnings "-clear-no-such-hyp".

(** ** Constructors and leaf structures *)

Lemma _check_valid_ok_inv (item : pyval) (checklist : list string) (u : unit) :
  _check_valid item checklist = Ok u → ∃ s, item = PStr s ∧ s ∈ checklist.
Proof.
  unfold _check_valid. destruct (py_in item checklist) eqn:Hin; [|done].
  intros _. by apply py_in_true.
Qed.

Lemma dom_update (base extra : dict) : dom (update base extra) = dom extra ∪ dom base.
Proof. by rewrite update_union, dom_union_L. Qed.

(** X1. [Line.__init__] and [Bar.__init__] raise in one case only: an
    extra option named ["assigned_type"], which collides with the type
    they pass to [Series.__init__] and gives the [TypeError] of a
    parameter with two values. With any other extra options they build
    the series of type ["line"] and ["bar"] with the name, data and
    options given, and the structure reports that type unless an extra
    option named ["type"] replaces it. *)
Theorem X1_Line_and_Bar_construct (name data : pyval) (kwargs : dict) :
  (kwargs !! "assigned_type" = None →
     Line.__init__ name data kwargs = Ok (Series.mk (PStr "line") name data kwargs) ∧
     Bar.__init__ name data kwargs = Ok (Series.mk (PStr "bar") name data kwargs)) ∧
  (is_Some (kwargs !! "assigned_type") →
     Line.__init__ name data kwargs = Raise (TypeError (MultipleValues "assigned_type")) ∧
     Bar.__init__ name data kwargs = Raise (TypeError (MultipleValues "assigned_type"))) ∧
  Series.json (Series.mk (PStr "line") name data kwargs) !! "type" =
    Some (default (PStr "line") (kwargs !! "type")) ∧
  Series.json (Series.mk (PStr "bar") name data kwargs) !! "type" =
    Some (default (PStr "bar") (kwargs !! "type")).
Proof.
  split; [|split; [|split]].
  - intros Hkw. split.
    + unfold Line.__init__, unpack_kwargs. rewrite Hkw.
      change (Series.__init__ (PStr "line") name data kwargs =
                Ok (Series.mk (PStr "line") name data kwargs)).
      unfold Series.__init__. rewrite _check_valid_member; [done|].
      apply (bool_decide_unpack _). by vm_compute.
    + unfold Bar.__init__, unpack_kwargs. rewrite Hkw.
      change (Series.__init__ (PStr "bar") name data kwargs =
                Ok (Series.mk (PStr "bar") name data kwargs)).
      unfold Series.__init__. rewrite _check_valid_member; [done|].
      apply (bool_decide_unpack _). by vm_compute.
  - intros [v Hkw]. unfold Line.__init__, Bar.__init__, unpack_kwargs. by rewrite Hkw.
  - unfold Series.json. rewrite lookup_update. simpl.
    by destruct (kwargs !! "type").
  - unfold Series.json. rewrite lookup_update. simpl.
    by destruct (kwargs !! "type").
Qed.

(** X1, at a line given a colour, and at a line given
    [assigned_type="pie"]. *)
Lemma X1_Line_and_Bar_construct_witness :
  Line.__init__ (PStr "L") PNone {[ "color" := PStr "red" ]} =
    Ok (Series.mk (PStr "line") (PStr "L") PNone {[ "color" := PStr "red" ]}) ∧
  Line.__init__ (PStr "L") PNone {[ "assigned_type" := PStr "pie" ]} =
    Raise (TypeError (MultipleValues "assigned_type")).
Proof.
  split.
  - apply (proj1 (X1_Line_and_Bar_construct (PStr "L") PNone {[ "color" := PStr "red" ]})).
    reflexivity.
  - apply (proj1 (proj2 (X1_Line_and_Bar_construct (PStr "L") PNone
                           {[ "assigned_type" := PStr "pie" ]}))).
    by eexists.
Defined.

(** X2. What validation buys: when a constructor returns an entity and
    no extra option has the name of the validated field, the structure
    of the entity carries under that name a string of the declared list
    (series type, axis type, legend orient, tooltip trigger). *)
Theorem X2_structure_carries_validated_value :
  (∀ assigned_type name data kwargs s,
     Series.__init__ assigned_type name data kwargs = Ok s →
     kwargs !! "type" = None →
     ∃ str, Series.json s !! "type" = Some (PStr str) ∧ str ∈ Series.DEFAULT_TYPES) ∧
  (∀ assigned_type name pos data kwargs a,
     Axis.__init__ assigned_type name pos data kwargs = Ok a →
     kwargs !! "type" = None →
     ∃ str, Axis.json a !! "type" = Some (PStr str) ∧ str ∈ Axis.SUPPORTED_TYPE) ∧
  (∀ position data assigned_type orient kwargs l,
     Legend.__init__ position data assigned_type orient kwargs = Ok l →
     kwargs !! "orient" = None →
     ∃ str, Legend.json l !! "orient" = Some (PStr str) ∧ str ∈ Legend.SUPPORTED_ORIENT) ∧
  (∀ trigger axis_pointer_type kwargs t,
     Tooltip.__init__ trigger axis_pointer_type kwargs = Ok t →
     kwargs !! "trigger" = None →
     ∃ str, Tooltip.json t !! "trigger" = Some (PStr str) ∧ str ∈ Tooltip.TRIGGERS).
Proof.
  split; [|split; [|split]].
  - intros ty name data kwargs s Hinit Hkw. unfold Series.__init__ in Hinit.
    destruct (_check_valid ty _) as [u|e] eqn:Hc; [|done].
    apply _check_valid_ok_inv in Hc as (str & -> & Hin).
    simpl in Hinit. injection Hinit as <-. exists str. split; [|done].
    unfold Series.json. rewrite lookup_update. simpl. by rewrite Hkw.
  - intros ty name pos data kwargs a Hinit Hkw. unfold Axis.__init__ in Hinit.
    destruct (_check_valid ty _) as [u|e] eqn:Hc; [|done].
    apply _check_valid_ok_inv in Hc as (str & -> & Hin).
    simpl in Hinit. injection Hinit as <-. exists str. split; [|done].
    unfold Axis.json. rewrite lookup_update. simpl. by rewrite Hkw.
  - intros position data ty orient kwargs l Hinit Hkw. unfold Legend.__init__ in Hinit.
    destruct (_check_valid orient _) as [u|e] eqn:Hc; [|done].
    apply _check_valid_ok_inv in Hc as (str & -> & Hin).
    simpl in Hinit. injection Hinit as <-. exists str. split; [|done].
    unfold Legend.json. rewrite lookup_update. simpl. by rewrite Hkw.
  - intros trigger apt kwargs t Hinit Hkw. unfold Tooltip.__init__ in Hinit.
    destruct (_check_valid trigger _) as [u|e] eqn:Hc; [|done].
    apply _check_valid_ok_inv in Hc as (str & -> & Hin).
    simpl in Hinit. injection Hinit as <-. exists str. split; [|done].
    unfold Tooltip.json. rewrite lookup_update. simpl. by rewrite Hkw.
Qed.

(** X2, at a pie series built with an extra option that is not a type. *)
Lemma X2_structure_carries_validated_value_witness :
  ∃ str,
    Series.json (Series.mk (PStr "pie") (PStr "P") PNone {[ "color" := PStr "red" ]})
      !! "type" = Some (PStr str) ∧
    str ∈ Series.DEFAULT_TYPES.
Proof.
  apply (proj1 X2_structure_carries_validated_value
           (PStr "pie") (PStr "P") PNone {[ "color" := PStr "red" ]}).
  - reflexivity.
  - reflexivity.
Defined.

(** X3. The keys of a leaf structure are the names of its base fields
    together with the names of the extra options: a base field is never
    left out, also when its value is [None] (a series without data still
    has the key ["data"]). *)
Theorem X3_leaf_structure_keys :
  (∀ s : Series.t,
     dom (Series.json s) = {[ "name"; "data"; "type" ]} ∪ dom (Series._optional_args s)) ∧
  (∀ a : Axis.t,
     dom (Axis.json a) =
       {[ "name"; "type"; "data"; "position" ]} ∪ dom (Axis._optional_args a)) ∧
  (∀ l : Legend.t,
     dom (Legend.json l) =
       {[ "orient"; "data"; "x"; "y"; "type" ]} ∪ dom (Legend._optional_args l)) ∧
  (∀ t : Tooltip.t,
     dom (Tooltip.json t) = {[ "trigger"; "axisPointer" ]} ∪ dom (Tooltip._optional_args t)).
Proof.
  split; [|split; [|split]]; intros self.
  - unfold Series.json. rewrite dom_update, !dom_insert_L, dom_singleton_L. set_solver.
  - unfold Axis.json. rewrite dom_update, !dom_insert_L, dom_singleton_L. set_solver.
  - unfold Legend.json. rewrite dom_update, !dom_insert_L, dom_singleton_L. set_solver.
  - unfold Tooltip.json. rewrite dom_update, !dom_insert_L, dom_singleton_L. set_solver.
Qed.

(** ** The state of a chart in use *)

Lemma step_series_attribute (c : call) (self : Chart.t) :
  Chart._series (step c self).2 = Chart._series self.
Proof.
  destruct c as [[[s|l|t|a]|v]|]; simpl; try done.
  - destruct (Axis.x_axis a).
    + by destruct (Chart._x_axis self).
    + by destruct (Chart._y_axis self).
  - by destruct (Chart.json self).
Qed.

Lemma chart_after_series_attribute (cs : list call) (self : Chart.t) :
  Chart._series (chart_after cs self) = Chart._series self.
Proof.
  revert self. induction cs as [|c cs IH]; intros self; [done|].
  by rewrite chart_after_cons, IH, step_series_attribute.
Qed.



(** X4. What [add_component] keeps true of a chart, after any sequence
    of calls: [_components] has exactly the five keys [__init__] gave
    it; the slot of a name holds [None] or a component of that kind (a
    series under ["series"], a legend under ["legend"], a tooltip under
    ["tooltip"]); and the list [_series] that [__init__] creates stays
    empty, the accepted series being kept in the slot. *)
Theorem X4_chart_slots_invariant (text subtext : pyval) (axis_enabled : bool)
    (animation : pyval) (kwargs : dict) (cs : list call) :
  dom (Chart._components
         (chart_after cs (Chart.__init__ text subtext axis_enabled animation kwargs))) =
    {[ "legend"; "tooltip"; "series"; "toolbox"; "visualMap" ]} ∧
  (∀ key c,
     Chart._components
       (chart_after cs (Chart.__init__ text subtext axis_enabled animation kwargs))
       !! key = Some (Some c) →
     slot_of c = Some key) ∧
  Chart._series (chart_after cs (Chart.__init__ text subtext axis_enabled animation kwargs))
    = [].
Proof.
  set (self0 := Chart.__init__ text subtext axis_enabled animation kwargs).
  assert (dom (Chart._components self0) =
    ({[ "legend"; "tooltip"; "series"; "toolbox"; "visualMap" ]} : gset string)) as Hdom0.
  { unfold self0. simpl. rewrite !dom_insert_L, dom_singleton_L. set_solver. }
  split; [|split].
  - rewrite <- Hdom0. apply set_eq. intros key. rewrite !elem_of_dom.
    rewrite chart_after_components.
    destruct (last_offered key cs) as [x|] eqn:Hx; [|done].
    split; [intros _|by eauto].
    apply elem_of_dom. rewrite Hdom0.
    apply last_offered_slot in Hx. destruct x; simpl in Hx; simplify_eq; set_solver.
  - intros key c. rewrite chart_after_components.
    destruct (last_offered key cs) as [x|] eqn:Hx.
    + intros [= <-]. by eapply last_offered_slot.
    + unfold self0. simpl. intros Hc.
      apply lookup_insert_Some in Hc as [[_ [=]]|[_ Hc]].
      apply lookup_insert_Some in Hc as [[_ [=]]|[_ Hc]].
      apply lookup_insert_Some in Hc as [[_ [=]]|[_ Hc]].
      apply lookup_insert_Some in Hc as [[_ [=]]|[_ Hc]].
      by apply lookup_singleton_Some in Hc as [_ [=]].
  - by rewrite chart_after_series_attribute.
Qed.


(** ** How calls compose *)

Lemma last_offered_app_none (key : string) (cs cs' : list call) :
  Forall (λ c, offered_for key c = None) cs' →
  last_offered key (cs ++ cs') = last_offered key cs.
Proof.
  induction cs' as [|c cs' IH] using rev_ind; intros Hnone.
  - by rewrite (right_id_L [] (++)).
  - apply Forall_app in Hnone as [Hcs' Hc].
    apply (proj1 (Forall_singleton _ _)) in Hc. simpl in Hc.
    by rewrite (assoc_L (++)), last_offered_snoc, Hc, IH.
Qed.

Lemma expected_base_slot (text subtext : pyval) (axis_enabled : bool) (animation : pyval)
    (cs : list call) (c : component) (key : string) :
  slot_of c = Some key →
  expected_base text subtext axis_enabled animation cs key =
    (λ c, PDict (component_json c)) <$> last_offered key cs.
Proof.
  intros Hslot. unfold expected_base.
  destruct c; simpl in Hslot; simplify_eq; reflexivity.
Qed.

(** X6. Among any calls, the last component offered for a slot is the
    one the structure shows: after a component of a slot is accepted,
    and whatever calls follow that offer nothing for that slot (other
    kinds of components, axes, refused values, readings of the
    structure), the structure has under the name of the slot the
    structure of that component, unless an extra option of that name
    was given. *)
Theorem X6_last_offered_component_is_shown (text subtext : pyval) (axis_enabled : bool)
    (animation : pyval) (kwargs : dict) (cs cs' : list call) (c : component)
    (key : string) :
  slot_of c = Some key →
  Forall (λ c', offered_for key c' = None) cs' →
  kwargs !! key = None →
  ∃ d,
    Chart.json
      (chart_after (cs ++ Call_add_component (Instance_of c) :: cs')
         (Chart.__init__ text subtext axis_enabled animation kwargs)) = Ok d ∧
    d !! key = Some (PDict (component_json c)).
Proof.
  intros Hslot Hnone Hkw.
  destruct (Chart_json_lookup_in_use text subtext axis_enabled animation kwargs
    (cs ++ Call_add_component (Instance_of c) :: cs')) as (d & Hd & Hlook).
  exists d. split; [exact Hd|].
  rewrite Hlook, Hkw, (expected_base_slot _ _ _ _ _ c) by done.
  rewrite (cons_middle _ cs cs'), (assoc_L (++)), last_offered_app_none by done.
  rewrite last_offered_snoc. simpl. by rewrite decide_True.
Qed.

(** X6, at a legend accepted before a series, an axis and a refused
    number. *)
Lemma X6_last_offered_component_witness :
  let legend := Legend.mk PNone (PStr "vertical") (PStr "plain") (PInt 0, PInt 9) ∅ in
  ∃ d,
    Chart.json
      (chart_after
         ([] ++ Call_add_component (Instance_of (CLegend legend)) ::
            [Call_add_component (Instance_of (CSeries (Series.mk (PStr "pie") PNone PNone ∅)));
             Call_add_component
               (Instance_of (CAxis (Axis.mk (PStr "log") (PStr "top") PNone PNone ∅)));
             Call_add_component (Other (PInt 3))])
         (Chart.__init__ (PStr "t") (PStr "s") true (PBool true) ∅)) = Ok d ∧
    d !! "legend" = Some (PDict (component_json (CLegend legend))).
Proof.
  intros legend.
  apply (X6_last_offered_component_is_shown (PStr "t") (PStr "s") true (PBool true) ∅
           [] _ (CLegend legend) "legend").
  - reflexivity.
  - repeat constructor.
  - reflexivity.
Defined.

(** X7. Components that go to different places can be accepted in
    either order: when two offered values do not target the same key of
    the structure, swapping the two calls gives the same chart. *)
Theorem X7_different_targets_commute (self : Chart.t) (o1 o2 : object) :
  target_key o1 ≠ target_key o2 →
  chart_after [Call_add_component o1; Call_add_component o2] self =
  chart_after [Call_add_component o2; Call_add_component o1] self.
Proof.
  intros Hne. rewrite !chart_after_cons, !step_add_component.
  unfold chart_after. cbn [run snd].
  destruct o1 as [[s1|l1|t1|a1]|v1], o2 as [[s2|l2|t2|a2]|v2];
    simpl in Hne; try done; simpl;
    repeat case_match; simplify_eq/=; try done;
    unfold Chart.set_component, Chart.set_x_axis, Chart.set_y_axis; simpl;
    first [ congruence | f_equal; by apply insert_insert_ne ].
Qed.

(** X7, at a series and a legend offered to a new chart. *)
Lemma X7_different_targets_commute_witness :
  let series := Instance_of (CSeries (Series.mk (PStr "bar") (PStr "B") PNone ∅)) in
  let legend := Instance_of
    (CLegend (Legend.mk PNone (PStr "horizontal") (PStr "plain") (PInt 1, PInt 2) ∅)) in
  chart_after [Call_add_component series; Call_add_component legend]
    (Chart.__init__ (PStr "t") (PStr "s") false (PBool true) ∅) =
  chart_after [Call_add_component legend; Call_add_component series]
    (Chart.__init__ (PStr "t") (PStr "s") false (PBool true) ∅).
Proof.
  intros series legend.
  apply (X7_different_targets_commute _ series legend). discriminate.
Defined.

Lemma offered_axes_snoc (horizontal : bool) (cs : list call) (c : call) :
  offered_axes horizontal (cs ++ [c]) =
    offered_axes horizontal cs ++
      match offered_axis horizontal c with
      | Some a => [a]
      | None => []
      end.
Proof.
  unfold offered_axes. rewrite omap_app. simpl.
  by destruct (offered_axis horizontal c).
Qed.

(** X8. Accepting the same component again: for a series, a legend or
    a tooltip the second call changes nothing, the chart is the one
    after the first call; an axis is appended again, so the list holds
    it twice and nothing removes the duplicate. *)
Theorem X8_accepting_twice (self : Chart.t) :
  (∀ c key, slot_of c = Some key →
     chart_after [Call_add_component (Instance_of c); Call_add_component (Instance_of c)] self =
     chart_after [Call_add_component (Instance_of c)] self) ∧
  (∀ a xs, Axis.x_axis a = true → Chart._x_axis self = Some xs →
     Chart._x_axis
       (chart_after [Call_add_component (Instance_of (CAxis a));
                     Call_add_component (Instance_of (CAxis a))] self) =
       Some (xs ++ [a; a])) ∧
  (∀ a ys, Axis.x_axis a = false → Chart._y_axis self = Some ys →
     Chart._y_axis
       (chart_after [Call_add_component (Instance_of (CAxis a));
                     Call_add_component (Instance_of (CAxis a))] self) =
       Some (ys ++ [a; a])).
Proof.
  split; [|split].
  - intros c key Hslot. unfold chart_after.
    destruct c as [s|l|t|a]; simpl in Hslot; try done; simpl;
      unfold Chart.set_component; simpl; by rewrite insert_insert_eq.
  - intros a xs Ha Hxs. unfold chart_after. simpl. rewrite Ha, Hxs. simpl.
    by rewrite <- (assoc_L (++)).
  - intros a ys Ha Hys. unfold chart_after. simpl. rewrite Ha, Hys. simpl.
    by rewrite <- (assoc_L (++)).
Qed.

(** X8, at a top axis offered twice to a new chart: the array under
    ["xAxis"] has its structure twice. *)
Lemma X8_accepting_twice_witness :
  let top := Axis.mk (PStr "value") (PStr "top") (PStr "x") PNone ∅ in
  Chart._x_axis
    (chart_after [Call_add_component (Instance_of (CAxis top));
                  Call_add_component (Instance_of (CAxis top))]
       (Chart.__init__ (PStr "t") (PStr "s") true (PBool true) ∅)) =
    Some [top; top].
Proof.
  intros top.
  exact (proj1 (proj2 (X8_accepting_twice
           (Chart.__init__ (PStr "t") (PStr "s") true (PBool true) ∅)))
           top [] eq_refl eq_refl).
Defined.

(** X9. Accepting a component changes at most one top-level key of the
    structure: the name of the slot of a series, legend or tooltip, or
    ["xAxis"] or ["yAxis"] for an axis; every other key keeps its value,
    and a refused value changes none. *)
Theorem X9_one_key_changes (text subtext : pyval) (axis_enabled : bool)
    (animation : pyval) (kwargs : dict) (cs : list call) (component : object) :
  ∃ d d',
    Chart.json (chart_after cs (Chart.__init__ text subtext axis_enabled animation kwargs))
      = Ok d ∧
    Chart.json
      (chart_after (cs ++ [Call_add_component component])
         (Chart.__init__ text subtext axis_enabled animation kwargs)) = Ok d' ∧
    ∀ key, target_key component ≠ Some key → d' !! key = d !! key.
Proof.
  destruct (Chart_json_lookup_in_use text subtext axis_enabled animation kwargs cs)
    as (d & Hd & Hlook).
  destruct (Chart_json_lookup_in_use text subtext axis_enabled animation kwargs
    (cs ++ [Call_add_component component])) as (d' & Hd' & Hlook').
  exists d, d'. split; [exact Hd|]. split; [exact Hd'|].
  intros key Hne. rewrite Hlook, Hlook'.
  destruct (kwargs !! key); [done|]. unfold expected_base.
  rewrite !offered_axes_snoc, last_offered_snoc.
  destruct component as [[s|l|t|a]|v]; simpl in *;
    repeat case_decide; simplify_eq/=; try done;
    rewrite ?(right_id_L [] (++)); try done;
    destruct (Axis.x_axis a); simplify_eq/=; done.
Qed.

Lemma offered_slots_snoc (cs : list call) (c : call) :
  offered_slots (cs ++ [c]) =
    offered_slots cs ∪
      match offered_slot c with
      | Some key => {[ key ]}
      | None => ∅
      end.
Proof.
  unfold offered_slots. rewrite omap_app, list_to_set_app_L. simpl.
  destruct (offered_slot c); simpl; set_solver.
Qed.

Lemma last_offered_is_Some (key : string) (cs : list call) :
  is_Some (last_offered key cs) ↔ key ∈ offered_slots cs.
Proof.
  induction cs as [|c cs IH] using rev_ind.
  - split; [by intros [? ?]|set_solver].
  - rewrite last_offered_snoc, offered_slots_snoc, elem_of_union, <- IH.
    destruct c as [[x|v]|]; simpl.
    + destruct (decide (slot_of x = Some key)) as [Hx|Hx].
      * rewrite Hx. split; [intros _; right; set_solver|eauto].
      * split; [by left|]. intros [H|H]; [done|].
        destruct (slot_of x); [|set_solver].
        apply elem_of_singleton in H. congruence.
    + split; [by left|]. intros [H|H]; [done|set_solver].
    + split; [by left|]. intros [H|H]; [done|set_solver].
Qed.

Lemma offered_slots_names (cs : list call) :
  offered_slots cs ⊆ {[ "series"; "legend"; "tooltip" ]}.
Proof.
  intros key Hkey%last_offered_is_Some. destruct Hkey as [x Hx].
  apply last_offered_slot in Hx. destruct x; simpl in Hx; simplify_eq; set_solver.
Qed.

(** X10. The keys of the structure of a chart in use are exactly:
    ["title"] and ["animation"]; ["xAxis"] and ["yAxis"] when the axis
    is enabled; the name of each slot for which a component was
    offered; and the names of the extra options. So further calls
    never remove a key. *)
Theorem X10_chart_structure_keys (text subtext : pyval) (axis_enabled : bool)
    (animation : pyval) (kwargs : dict) (cs : list call) :
  ∃ d,
    Chart.json (chart_after cs (Chart.__init__ text subtext axis_enabled animation kwargs))
      = Ok d ∧
    dom d =
      {[ "title"; "animation" ]} ∪
      (if axis_enabled then {[ "xAxis"; "yAxis" ]} else ∅) ∪
      offered_slots cs ∪
      dom kwargs ∧
    offered_slots cs ⊆ {[ "series"; "legend"; "tooltip" ]} ∧
    ∀ cs', ∃ d',
      Chart.json
        (chart_after (cs ++ cs')
           (Chart.__init__ text subtext axis_enabled animation kwargs)) = Ok d' ∧
      dom d ⊆ dom d'.
Proof.
  assert (∀ cs0, ∃ d,
    Chart.json (chart_after cs0 (Chart.__init__ text subtext axis_enabled animation kwargs))
      = Ok d ∧
    dom d =
      {[ "title"; "animation" ]} ∪
      (if axis_enabled then {[ "xAxis"; "yAxis" ]} else ∅) ∪
      offered_slots cs0 ∪
      dom kwargs) as Hkeys.
  { intros cs0.
    destruct (Chart_json_lookup_in_use text subtext axis_enabled animation kwargs cs0)
      as (d & Hd & Hlook).
    exists d. split; [exact Hd|].
    apply set_eq. intros key. rewrite elem_of_dom, Hlook.
    rewrite !elem_of_union, (elem_of_dom kwargs), <- last_offered_is_Some.
    destruct (kwargs !! key) as [v|]; [by split; eauto|].
    unfold expected_base.
    destruct (decide (key = "xAxis")) as [->|].
    { rewrite last_offered_other by done.
      destruct axis_enabled; split; try set_solver; by eauto. }
    destruct (decide (key = "yAxis")) as [->|].
    { rewrite last_offered_other by done.
      destruct axis_enabled; split; try set_solver; by eauto. }
    destruct (decide (key = "title")) as [->|]; [split; [set_solver|by eauto]|].
    destruct (decide (key = "animation")) as [->|]; [split; [set_solver|by eauto]|].
    rewrite fmap_is_Some. split; [by eauto|].
    intros [[[H|H]|H]|[? [=]]]; [set_solver| |done].
    destruct axis_enabled; set_solver. }
  destruct (Hkeys cs) as (d & Hd & Hdom).
  exists d. split; [exact Hd|]. split; [exact Hdom|].
  split; [apply offered_slots_names|].
  intros cs'. destruct (Hkeys (cs ++ cs')) as (d' & Hd' & Hdom').
  exists d'. split; [exact Hd'|]. rewrite Hdom, Hdom'.
  assert (offered_slots cs ⊆ offered_slots (cs ++ cs')) as Hsub.
  { unfold offered_slots. rewrite omap_app, list_to_set_app_L. set_solver. }
  set_solver.
Qed.

(** X11. The title and the animation flag of the structure are the
    ones given to [__init__], whatever components were accepted since:
    under ["title"] the dictionary of the text and the subtext, under
    ["animation"] the flag, each unless an extra option of that name
    replaces it. *)
Theorem X11_title_and_animation_are_kept (text subtext : pyval) (axis_enabled : bool)
    (animation : pyval) (kwargs : dict) (cs : list call) :
  ∃ d,
    Chart.json (chart_after cs (Chart.__init__ text subtext axis_enabled animation kwargs))
      = Ok d ∧
    d !! "title" =
      Some (default (PDict {[ "text" := text; "subtext" := subtext ]}) (kwargs !! "title")) ∧
    d !! "animation" = Some (default animation (kwargs !! "animation")).
Proof.
  destruct (Chart_json_lookup_in_use text subtext axis_enabled animation kwargs cs)
    as (d & Hd & Hlook).
  exists d. split; [exact Hd|]. rewrite !Hlook. split.
  - by destruct (kwargs !! "title").
  - by destruct (kwargs !! "animation").
Qed.

(** X12. A chart built with the axis disabled never gets axis arrays:
    whatever is offered to it, its structure has under ["xAxis"] and
    ["yAxis"] only what the extra options have there, nothing without
    such options. *)
Theorem X12_no_axis_arrays_when_disabled (text subtext animation : pyval) (kwargs : dict)
    (cs : list call) :
  ∃ d,
    Chart.json (chart_after cs (Chart.__init__ text subtext false animation kwargs)) = Ok d ∧
    d !! "xAxis" = kwargs !! "xAxis" ∧
    d !! "yAxis" = kwargs !! "yAxis".
Proof.
  destruct (Chart_json_lookup_in_use text subtext false animation kwargs cs)
    as (d & Hd & Hlook).
  exists d. split; [exact Hd|]. rewrite !Hlook. split.
  - by destruct (kwargs !! "xAxis").
  - by destruct (kwargs !! "yAxis").
Qed.


(** X14. The array an axis goes to agrees with the position its
    structure shows: for an axis without an extra option named
    ["position"], [x_axis()] holds exactly when the structure has
    ["top"] or ["bottom"] under ["position"]. (With such an extra
    option the structure shows the option, and the two can differ.) *)
Theorem X14_axis_structure_shows_orientation (self : Axis.t) :
  Axis._optional_args self !! "position" = None →
  Axis.json self !! "position" = Some (Axis.position self) ∧
  (Axis.x_axis self = true ↔
     Axis.json self !! "position" = Some (PStr "top") ∨
     Axis.json self !! "position" = Some (PStr "bottom")).
Proof.
  intros Hkw.
  assert (Axis.json self !! "position" = Some (Axis._pos self)) as Hpos.
  { unfold Axis.json. by rewrite lookup_update, Hkw. }
  split; [exact Hpos|]. rewrite Hpos. unfold Axis.x_axis.
  destruct (py_in _ _) eqn:Hin.
  - apply py_in_true in Hin as (s & -> & Hs). split; [intros _|done].
    apply elem_of_cons in Hs as [->|Hs]; [by right|].
    apply elem_of_cons in Hs as [->|Hs]; [by left|].
    by apply elem_of_nil in Hs.
  - split; [done|]. intros [[= H]|[= H]]; rewrite H in Hin; discriminate.
Qed.

(** X14, at a bottom axis, and the difference an extra option makes: a
    top axis given [position="left"] is horizontal and shows ["left"]. *)
Lemma X14_axis_structure_witness :
  let bottom := Axis.mk (PStr "category") (PStr "bottom") (PStr "x") PNone ∅ in
  let odd := Axis.mk (PStr "value") (PStr "top") (PStr "x") PNone
               {[ "position" := PStr "left" ]} in
  Axis.json bottom !! "position" = Some (PStr "bottom") ∧
  Axis.x_axis bottom = true ∧
  Axis.x_axis odd = true ∧
  Axis.json odd !! "position" = Some (PStr "left").
Proof.
  intros bottom odd.
  destruct (X14_axis_structure_shows_orientation bottom eq_refl) as [Hpos Hiff].
  split; [exact Hpos|]. split; [|split].
  - apply Hiff. right. exact Hpos.
  - reflexivity.
  - unfold Axis.json. by rewrite lookup_update.
Defined.
